(** * Verification of kudu/scripts/upgrade.py

    A shallow embedding of the parcel upgrade script: the selection of the
    best upgrade candidate, the release-version extraction, the stage
    driver with its polling loop, and the cluster resolution.

    Strings are [Stdlib.Strings.String.string] (sequences of 8-bit
    characters); Python's [<] / [>] on strings is the lexicographic order
    [String.ltb].  The Cloudera Manager client is an interface
    ([CmApi]) over an abstract world; every call of the client and every
    line printed is recorded in a chronological log. *)

From Stdlib Require Import Bool Arith ZArith Lia List.
From Stdlib Require Import Ascii String DecimalString.
From Stdlib Require DecimalZ DecimalPos.
Import ListNotations.

Open Scope string_scope.
Open Scope list_scope.

(* ================================================================= *)
(** ** Python values used by the script *)

(** [raise Exception(msg)]. *)
Inductive exn : Type :=
| Exception (msg : string).

(** Outcome of a call: a value, or a raised exception. *)
Inductive Res (A : Type) : Type :=
| Ok (a : A)
| Raise (e : exn).
Arguments Ok {A} a.
Arguments Raise {A} e.

Definition bindR {A B : Type} (r : Res A) (k : A -> Res B) : Res B :=
  match r with
  | Ok a => k a
  | Raise e => Raise e
  end.

Notation "'let?' x ':=' c 'in' k" := (bindR c (fun x => k))
  (at level 10, x name, c at level 100, k at level 200).

(** [parcel.state]: the error list and the progress counters. *)
Record ParcelState : Type := mkParcelState {
  errors : list string;
  progress : Z;
  totalProgress : Z
}.

(** A parcel record as returned by the client. *)
Record Parcel : Type := mkParcel {
  product : string;
  version : string;
  stage : string;
  state : ParcelState
}.

(** A cluster handle. *)
Record Cluster : Type := mkCluster {
  name : string;
  displayName : string
}.

(** ["%s" % n] / ["%d" % n] for an integer. *)
Definition str_of_Z (n : Z) : string :=
  NilZero.string_of_int (Z.to_int n).

(** Truth value of a list: [if xs:]. *)
Definition truthy_list {A : Type} (xs : list A) : bool :=
  match xs with
  | [] => false
  | _ :: _ => true
  end.

(** Truth value of an optional string ([None] or a [str]): [if s:]. *)
Definition truthy_name (s : option string) : bool :=
  match s with
  | None => false
  | Some n => negb (n =? "")
  end.

(* ================================================================= *)
(** ** The regular expression of [get_release_version]

    [re.match("(\d+\.\d+\.\d+).*", full_version)]: a backtracking matcher
    anchored at the start of the string, with greedy quantifiers, for
    patterns made of single-character classes. *)

Inductive charset : Type :=
| Digit                (* \d *)
| Lit (c : ascii)      (* an escaped literal such as \. *)
| AnyChar.             (* .  : anything but a newline *)

Definition is_digit (c : ascii) : bool :=
  (("0" <=? c) && (c <=? "9"))%char.

Definition newline : ascii := ascii_of_nat 10.

Definition in_charset (cs : charset) (c : ascii) : bool :=
  match cs with
  | Digit => is_digit c
  | Lit l => Ascii.eqb l c
  | AnyChar => negb (Ascii.eqb c newline)
  end.

Inductive item : Type :=
| One (cs : charset)       (* cs  *)
| Plus (cs : charset)      (* cs+ *)
| Star (cs : charset).     (* cs* *)

(** Greedy [cs*]: take one more character when possible, and fall back
    to the continuation at the current position when the rest fails. *)
Fixpoint star {A : Type} (cs : charset) (s : string)
    (k : string -> option A) : option A :=
  match s with
  | String c s' =>
      if in_charset cs c then
        match star cs s' k with
        | Some r => Some r
        | None => k s
        end
      else k s
  | EmptyString => k s
  end.

Definition plus {A : Type} (cs : charset) (s : string)
    (k : string -> option A) : option A :=
  match s with
  | String c s' => if in_charset cs c then star cs s' k else None
  | EmptyString => None
  end.

Fixpoint match_items {A : Type} (items : list item) (s : string)
    (k : string -> option A) : option A :=
  match items with
  | [] => k s
  | One cs :: rest =>
      match s with
      | String c s' => if in_charset cs c then match_items rest s' k else None
      | EmptyString => None
      end
  | Plus cs :: rest => plus cs s (fun s' => match_items rest s' k)
  | Star cs :: rest => star cs s (fun s' => match_items rest s' k)
  end.

(** The capturing group [(\d+\.\d+\.\d+)] and what follows it, [.*]. *)
Definition release_group : list item :=
  [Plus Digit; One (Lit "."); Plus Digit; One (Lit "."); Plus Digit].

Definition release_tail : list item := [Star AnyChar].

(** [re.match(...)] followed by [match.group(1)]: the text between the
    start of the string and the position where the group ended. *)
Definition re_match_group1 (s : string) : option string :=
  match_items release_group s (fun after_group =>
    match_items release_tail after_group (fun _ =>
      Some (substring 0 (String.length s - String.length after_group) s))).

Definition get_release_version (full_version : string) : Res string :=
  match re_match_group1 full_version with
  | None =>
      Raise (Exception
        ("Could not get the release version from " ++ full_version ++ "."))
  | Some g => Ok g
  end.

Definition release_versions_match (parcel1 parcel2 : Parcel) : Res bool :=
  let? r1 := get_release_version (version parcel1) in
  let? r2 := get_release_version (version parcel2) in
  Ok (r1 =? r2).

(* ================================================================= *)
(** ** The external collaborators *)

(** The Cloudera Manager client and the clock, over a world [W] that the
    script does not own.  Every call may raise. *)
Class CmApi (W : Type) : Type := {
  api_get_cluster : string -> W -> Res Cluster * W;
  api_get_all_clusters : W -> Res (list Cluster) * W;
  cluster_get_all_parcels : Cluster -> W -> Res (list Parcel) * W;
  cluster_get_parcel : Cluster -> string -> string -> W -> Res Parcel * W;
  parcel_start_download : Parcel -> W -> Res unit * W;
  parcel_start_distribution : Parcel -> W -> Res unit * W;
  parcel_activate : Parcel -> W -> Res unit * W;
  time_sleep : Z -> W -> W
}.

(** Python's [str] of a list of strings (the error payload). *)
Class PyStr : Type := {
  str_of_list : list string -> string
}.

(** What the script does to the outside, in order. *)
Inductive event : Type :=
| GetAllClusters
| GetCluster (cluster_name : string)
| GetAllParcels (c : Cluster)
| GetParcel (c : Cluster) (prod ver : string)
| StartDownload (p : Parcel)
| StartDistribution (p : Parcel)
| Activate (p : Parcel)
| Print (line : string)
| Sleep (seconds : Z).

(** The state threaded through a run: the world and the log so far. *)
Record Run (W : Type) : Type := mkRun {
  world : W;
  log : list event
}.
Arguments mkRun {W} world log.
Arguments world {W} r.
Arguments log {W} r.

Definition M (W A : Type) : Type := Run W -> Res A * Run W.

Definition ret {W A : Type} (a : A) : M W A := fun st => (Ok a, st).

Definition raise {W A : Type} (e : exn) : M W A := fun st => (Raise e, st).

Definition bind {W A B : Type} (m : M W A) (k : A -> M W B) : M W B :=
  fun st =>
    match m st with
    | (Ok a, st') => k a st'
    | (Raise e, st') => (Raise e, st')
    end.

Definition lift {W A : Type} (r : Res A) : M W A := fun st => (r, st).

Notation "x <- c ;; k" := (bind c (fun x => k))
  (at level 61, c at next level, right associativity).
Notation "c ;; k" := (bind c (fun _ => k))
  (at level 61, right associativity).

(** Record the event [e], then let the world answer the call. *)
Definition call {W A : Type} (e : event) (f : W -> Res A * W) : M W A :=
  fun st =>
    let (r, w') := f (world st) in
    (r, mkRun w' (log st ++ [e])).

Definition print {W : Type} (line : string) : M W unit :=
  fun st => (Ok tt, mkRun (world st) (log st ++ [Print line])).

(* ================================================================= *)
(** ** Candidate selection *)

(** The loop over [cluster.get_all_parcels()] that fills
    [activated_parcels] and [candidate_parcels]. *)
Definition classify (acc : list Parcel * list Parcel) (parcel : Parcel)
    : list Parcel * list Parcel :=
  let (activated_parcels, candidate_parcels) := acc in
  if product parcel =? "KUDU" then
    if stage parcel =? "ACTIVATED" then
      (activated_parcels ++ [parcel], candidate_parcels)
    else
      (activated_parcels, candidate_parcels ++ [parcel])
  else acc.

Definition split_parcels (all_parcels : list Parcel)
    : list Parcel * list Parcel :=
  fold_left classify all_parcels ([], []).

(** [max(parcels, key=lambda p: p.version)]: the running maximum is
    replaced only by a strictly greater key, so the first of several
    maximal items is returned. *)
Fixpoint max_from (best : Parcel) (rest : list Parcel) : Parcel :=
  match rest with
  | [] => best
  | p :: rest' =>
      max_from (if (version best <? version p)%string then p else best) rest'
  end.

Definition max_by_version (parcels : list Parcel) : Res Parcel :=
  match parcels with
  | [] => Raise (Exception "max() arg is an empty sequence")
  | p :: rest => Ok (max_from p rest)
  end.

(** The list comprehension that filters the candidates: the release test
    comes first, for every candidate, and raises on a malformed version. *)
Fixpoint filter_candidates (greatest_activated : Parcel)
    (candidate_parcels : list Parcel) : Res (list Parcel) :=
  match candidate_parcels with
  | [] => Ok []
  | parcel :: rest =>
      let? same_release := release_versions_match parcel greatest_activated in
      let keep :=
        same_release && (version greatest_activated <? version parcel)%string in
      let? rest' := filter_candidates greatest_activated rest in
      Ok (if keep then parcel :: rest' else rest')
  end.

Definition chose_line (p : Parcel) : string :=
  "Chose the new parcel " ++ product p ++ "-" ++ version p
    ++ " (Stage: " ++ stage p ++ ").".

Definition no_candidates_msg (base : Parcel) : string :=
  "No upgrade candidates available for parcel version "
    ++ product base ++ "-" ++ version base ++ ".".

Definition no_activated_msg : string :=
  "No activated KUDU parcels found. Activate one first and then upgrade.".

Definition malformed_msg (full_version : string) : string :=
  "Could not get the release version from " ++ full_version ++ ".".

Section Script.

Context {W : Type} {api : CmApi W} {pystr : PyStr}.

Definition get_best_upgrade_candidate_parcel (cluster : Cluster)
    : M W Parcel :=
  all_parcels <- call (GetAllParcels cluster) (cluster_get_all_parcels cluster) ;;
  let (activated_parcels, candidate_parcels) := split_parcels all_parcels in
  if (0 <? List.length activated_parcels)%nat then
    greatest_activated <- lift (max_by_version activated_parcels) ;;
    candidate_parcels <-
      lift (filter_candidates greatest_activated candidate_parcels) ;;
    if (0 <? List.length candidate_parcels)%nat then
      greatest_candidate <- lift (max_by_version candidate_parcels) ;;
      print (chose_line greatest_candidate) ;;
      ret greatest_candidate
    else
      raise (Exception (no_candidates_msg greatest_activated))
  else
    raise (Exception no_activated_msg).

(* ================================================================= *)
(** ** The stage driver *)

Definition fetch_error_msg (new_parcel : Parcel) : string :=
  "Fetching parcel resulted in error "
    ++ str_of_list (errors (state new_parcel)).

Definition progress_line (new_parcel : Parcel) : string :=
  "progress: " ++ str_of_Z (progress (state new_parcel))
    ++ " / " ++ str_of_Z (totalProgress (state new_parcel)).

Definition timeout_msg (parcel : Parcel) (target : string) (max_time : Z)
    : string :=
  "Parcel " ++ product parcel ++ "-" ++ version parcel
    ++ " did not reach stage " ++ target ++ " in " ++ str_of_Z max_time
    ++ " seconds.".

(** [for attempt in xrange(1, max_time + 1): ... else: raise ...] with
    [attempts] iterations left; the range is taken over unbounded
    integers, and is empty when [max_time] is not positive. *)
Fixpoint poll_loop (cluster : Cluster) (parcel : Parcel) (target : string)
    (max_time : Z) (attempts : nat) : M W unit :=
  match attempts with
  | O => raise (Exception (timeout_msg parcel target max_time))
  | S attempts' =>
      new_parcel <- call (GetParcel cluster (product parcel) (version parcel))
                      (cluster_get_parcel cluster (product parcel) (version parcel)) ;;
      if stage new_parcel =? target then ret tt
      else if truthy_list (errors (state new_parcel)) then
        raise (Exception (fetch_error_msg new_parcel))
      else
        print (progress_line new_parcel) ;;
        call (Sleep 1) (fun w => (Ok tt, time_sleep 1 w)) ;;
        poll_loop cluster parcel target max_time attempts'
  end.

Definition wait_for_parcel_stage (cluster : Cluster) (parcel : Parcel)
    (target : string) (max_time : Z) : M W unit :=
  poll_loop cluster parcel target max_time (Z.to_nat max_time).

Definition parcel_id (parcel : Parcel) : string :=
  product parcel ++ "-" ++ version parcel.

Definition ensure_parcel_activated (cluster : Cluster) (parcel : Parcel)
    (max_time_per_stage : Z) : M W unit :=
  let parcel_stage := stage parcel in
  parcel_stage <-
    (if parcel_stage =? "AVAILABLE_REMOTELY" then
       print ("Downloading parcel: " ++ parcel_id parcel) ;;
       call (StartDownload parcel) (parcel_start_download parcel) ;;
       wait_for_parcel_stage cluster parcel "DOWNLOADED" max_time_per_stage ;;
       print ("Downloaded parcel: " ++ parcel_id parcel ++ " ") ;;
       ret "DOWNLOADED"
     else ret parcel_stage) ;;
  parcel_stage <-
    (if parcel_stage =? "DOWNLOADED" then
       print ("Distributing parcel: " ++ parcel_id parcel ++ " ") ;;
       call (StartDistribution parcel) (parcel_start_distribution parcel) ;;
       wait_for_parcel_stage cluster parcel "DISTRIBUTED" max_time_per_stage ;;
       print ("Distributed parcel: " ++ parcel_id parcel ++ " ") ;;
       ret "DISTRIBUTED"
     else ret parcel_stage) ;;
  if parcel_stage =? "DISTRIBUTED" then
    print ("Activating parcel: " ++ parcel_id parcel ++ " ") ;;
    call (Activate parcel) (parcel_activate parcel) ;;
    wait_for_parcel_stage cluster parcel "ACTIVATED" max_time_per_stage ;;
    print ("Activated parcel: " ++ parcel_id parcel ++ " ")
  else ret tt.

(** The three [if] blocks of [ensure_parcel_activated], each as a function
    of the value of [parcel_stage] it tests. *)
Definition download_step (cluster : Cluster) (parcel : Parcel)
    (max_time_per_stage : Z) (parcel_stage : string) : M W string :=
  if parcel_stage =? "AVAILABLE_REMOTELY" then
    print ("Downloading parcel: " ++ parcel_id parcel) ;;
    call (StartDownload parcel) (parcel_start_download parcel) ;;
    wait_for_parcel_stage cluster parcel "DOWNLOADED" max_time_per_stage ;;
    print ("Downloaded parcel: " ++ parcel_id parcel ++ " ") ;;
    ret "DOWNLOADED"
  else ret parcel_stage.

Definition distribute_step (cluster : Cluster) (parcel : Parcel)
    (max_time_per_stage : Z) (parcel_stage : string) : M W string :=
  if parcel_stage =? "DOWNLOADED" then
    print ("Distributing parcel: " ++ parcel_id parcel ++ " ") ;;
    call (StartDistribution parcel) (parcel_start_distribution parcel) ;;
    wait_for_parcel_stage cluster parcel "DISTRIBUTED" max_time_per_stage ;;
    print ("Distributed parcel: " ++ parcel_id parcel ++ " ") ;;
    ret "DISTRIBUTED"
  else ret parcel_stage.

Definition activate_step (cluster : Cluster) (parcel : Parcel)
    (max_time_per_stage : Z) (parcel_stage : string) : M W unit :=
  if parcel_stage =? "DISTRIBUTED" then
    print ("Activating parcel: " ++ parcel_id parcel ++ " ") ;;
    call (Activate parcel) (parcel_activate parcel) ;;
    wait_for_parcel_stage cluster parcel "ACTIVATED" max_time_per_stage ;;
    print ("Activated parcel: " ++ parcel_id parcel ++ " ")
  else ret tt.

(* ================================================================= *)
(** ** Cluster resolution *)

Definition no_clusters_msg : string :=
  "No clusters found; create one before calling this script.".

Definition many_clusters_msg : string :=
  "More than one cluster found; specify which cluster to use using --cluster.".

(** Lines 128-135: the path taken when [cluster_name] is falsy. *)
Definition find_sole_cluster : M W Cluster :=
  all_clusters <- call GetAllClusters api_get_all_clusters ;;
  if (List.length all_clusters =? 0)%nat then
    raise (Exception no_clusters_msg)
  else if (1 <? List.length all_clusters)%nat then
    raise (Exception many_clusters_msg)
  else
    match all_clusters with
    | cluster :: _ =>
        print ("Found cluster: " ++ displayName cluster) ;;
        ret cluster
    | [] => raise (Exception "list index out of range")
    end.

(** [cluster_name] is [args.cluster]: [None] when the flag is absent,
    otherwise the string given; [if cluster_name:] is false for [None]
    and for the empty string. *)
Definition find_cluster (cluster_name : option string) : M W Cluster :=
  match cluster_name with
  | Some n =>
      if truthy_name cluster_name then
        call (GetCluster n) (api_get_cluster n)
      else find_sole_cluster
  | None => find_sole_cluster
  end.

End Script.

(** [main]: the client object is built from the arguments without any
    request; the three steps run in sequence and nothing is caught. *)
Record Args : Type := mkArgs {
  arg_host : string;
  arg_user : string;
  arg_password : string;
  arg_cluster : option string;
  arg_max_time_per_stage : Z
}.

Definition main {W : Type} {api : CmApi W} {pystr : PyStr} (args : Args)
    : M W unit :=
  cluster <- find_cluster (arg_cluster args) ;;
  parcel <- get_best_upgrade_candidate_parcel cluster ;;
  ensure_parcel_activated cluster parcel (arg_max_time_per_stage args).

(* ================================================================= *)
(** ** Vocabulary of the specification *)

(** A non-empty run of decimal digits. *)
Fixpoint all_digits (s : string) : bool :=
  match s with
  | EmptyString => true
  | String c s' => is_digit c && all_digits s'
  end.

Definition number (s : string) : Prop :=
  s <> "" /\ all_digits s = true.

(** The string starts with [digits.digits.digits]. *)
Definition has_leading_triplet (v : string) : Prop :=
  exists d1 d2 d3 rest,
    number d1 /\ number d2 /\ number d3 /\
    v = (d1 ++ "." ++ d2 ++ "." ++ d3 ++ rest)%string.

(** The version matches the release pattern. *)
Definition well_formed (v : string) : bool :=
  match re_match_group1 v with
  | Some _ => true
  | None => false
  end.

Definition is_kudu (p : Parcel) : bool := product p =? "KUDU".

Definition is_activated (p : Parcel) : bool := stage p =? "ACTIVATED".

(** The KUDU records with stage ACTIVATED, and the other KUDU records. *)
Definition kudu_activated (ps : list Parcel) : list Parcel :=
  filter (fun p => is_kudu p && is_activated p) ps.

Definition kudu_candidates (ps : list Parcel) : list Parcel :=
  filter (fun p => is_kudu p && negb (is_activated p)) ps.

(** [base] has the lexicographically greatest version of [ps]. *)
Definition greatest_of (ps : list Parcel) (base : Parcel) : Prop :=
  In base ps /\
  forall a, In a ps -> (version a <=? version base)%string = true.

(** [p] has the same extracted release as [base] and a greater version. *)
Definition is_upgrade_of (base p : Parcel) : bool :=
  match get_release_version (version p), get_release_version (version base) with
  | Ok r1, Ok r2 => (r1 =? r2) && (version base <? version p)%string
  | _, _ => false
  end.

(** The strings handed to the release extraction while the candidates are
    filtered, in order: for each candidate its own version and then the
    baseline's. *)
Definition examined (base : Parcel) (cands : list Parcel) : list string :=
  flat_map (fun c => [version c; version base]) cands.

(** Observations on a log. *)
Definition is_fetch (e : event) : bool :=
  match e with
  | GetParcel _ _ _ => true
  | _ => false
  end.

Definition is_action (e : event) : bool :=
  match e with
  | StartDownload _ | StartDistribution _ | Activate _ => true
  | _ => false
  end.

Definition fetches (l : list event) : nat := List.length (filter is_fetch l).

Definition actions (l : list event) : list event := filter is_action l.

(** The requests the driver has to issue from a given stage on. *)
Definition plan (parcel : Parcel) : list event :=
  if stage parcel =? "AVAILABLE_REMOTELY" then
    [StartDownload parcel; StartDistribution parcel; Activate parcel]
  else if stage parcel =? "DOWNLOADED" then
    [StartDistribution parcel; Activate parcel]
  else if stage parcel =? "DISTRIBUTED" then
    [Activate parcel]
  else [].

(** A polled status that neither reaches the target nor reports errors. *)
Definition quiet (target : string) (s : Parcel) : bool :=
  negb (stage s =? target) && negb (truthy_list (errors (state s))).

(** The world after [k] successive fetches of the parcel's status, one
    second apart, each of which answers with a quiet status; [None] when
    one of them answers otherwise. *)
Fixpoint after_quiet_polls {W : Type} {api : CmApi W} (cluster : Cluster)
    (parcel : Parcel) (target : string) (k : nat) (w : W) : option W :=
  match k with
  | O => Some w
  | S k' =>
      match cluster_get_parcel cluster (product parcel) (version parcel) w with
      | (Ok s, w') =>
          if quiet target s then
            after_quiet_polls cluster parcel target k' (time_sleep 1 w')
          else None
      | (Raise _, _) => None
      end
  end.

(* ================================================================= *)
(** ** A scripted world, to run the script on concrete inputs *)

Record Scripted : Type := mkScripted {
  sc_clusters : list Cluster;
  sc_parcels : list Parcel;
  sc_polls : list Parcel
}.

Definition scripted_get_cluster (n : string) (w : Scripted)
    : Res Cluster * Scripted :=
  match find (fun c => name c =? n) (sc_clusters w) with
  | Some c => (Ok c, w)
  | None => (Raise (Exception "cluster not found"), w)
  end.

Definition scripted_get_parcel (c : Cluster) (prod ver : string) (w : Scripted)
    : Res Parcel * Scripted :=
  match sc_polls w with
  | [] => (Raise (Exception "no status"), w)
  | s :: rest => (Ok s, mkScripted (sc_clusters w) (sc_parcels w) rest)
  end.

#[export] Instance scripted_api : CmApi Scripted := {
  api_get_cluster := scripted_get_cluster;
  api_get_all_clusters := fun w => (Ok (sc_clusters w), w);
  cluster_get_all_parcels := fun _ w => (Ok (sc_parcels w), w);
  cluster_get_parcel := scripted_get_parcel;
  parcel_start_download := fun _ w => (Ok tt, w);
  parcel_start_distribution := fun _ w => (Ok tt, w);
  parcel_activate := fun _ w => (Ok tt, w);
  time_sleep := fun _ w => w
}.

(** Python 2's [repr] of a byte string: single quotes, unless the string
    holds a single quote and no double quote; the quote and the backslash
    are escaped, tab, newline and carriage return are written with their
    letter, and any other byte outside the printable range as [\xNN]. *)
Definition single_quote : ascii := "'"%char.

Definition double_quote : ascii := ascii_of_nat 34.

Definition backslash : ascii := ascii_of_nat 92.

Fixpoint has_char (c : ascii) (s : string) : bool :=
  match s with
  | EmptyString => false
  | String x s' => Ascii.eqb x c || has_char c s'
  end.

Definition hex_digit (n : nat) : ascii :=
  nth n (list_ascii_of_string "0123456789abcdef") "0"%char.

Definition repr_char (quote c : ascii) : string :=
  if Ascii.eqb c quote || Ascii.eqb c backslash then
    String backslash (String c "")
  else if Ascii.eqb c (ascii_of_nat 9) then String backslash "t"
  else if Ascii.eqb c (ascii_of_nat 10) then String backslash "n"
  else if Ascii.eqb c (ascii_of_nat 13) then String backslash "r"
  else if (nat_of_ascii c <? 32)%nat || (126 <? nat_of_ascii c)%nat then
    String backslash
      (String "x" (String (hex_digit (nat_of_ascii c / 16))
                     (String (hex_digit (nat_of_ascii c mod 16)) "")))
  else String c "".

Fixpoint repr_chars (quote : ascii) (s : string) : string :=
  match s with
  | EmptyString => EmptyString
  | String c s' => repr_char quote c ++ repr_chars quote s'
  end.

Definition py_repr (s : string) : string :=
  let quote :=
    if has_char single_quote s && negb (has_char double_quote s)
    then double_quote else single_quote in
  String quote (repr_chars quote s ++ String quote "").

(** [str] of a list of byte strings: the [repr] of its items, separated
    by a comma and a space, between square brackets. *)
Definition py_str_list (l : list string) : string :=
  "[" ++ String.concat ", " (map py_repr l) ++ "]".

#[export] Instance python_str : PyStr := {
  str_of_list := py_str_list
}.

Definition no_state : ParcelState := mkParcelState [] 0 0.

Definition kudu (ver stg : string) : Parcel := mkParcel "KUDU" ver stg no_state.

Definition cluster1 : Cluster := mkCluster "c1" "Cluster 1".

Definition cluster2 : Cluster := mkCluster "c2" "Cluster 2".

Definition start (w : Scripted) : Run Scripted := mkRun w [].

(** Sample parcel lists. *)
Definition base_1_4_0 : Parcel := kudu "1.4.0-1" "ACTIVATED".

Definition ps_upgrade : list Parcel :=
  [base_1_4_0; kudu "1.4.0-2" "DOWNLOADED";
   kudu "1.4.0-3" "AVAILABLE_REMOTELY"; kudu "1.5.0-3" "DOWNLOADED"].

Definition ps_upgrade_tied : list Parcel :=
  [base_1_4_0; kudu "1.4.0-3" "DOWNLOADED"; kudu "1.4.0-2" "DOWNLOADED";
   kudu "1.4.0-3" "DISTRIBUTED"].

Definition ps_bad_baseline : list Parcel := [kudu "bad" "ACTIVATED"].

Definition ps_stray : list Parcel :=
  [base_1_4_0; kudu "1.4.0-2" "DOWNLOADED"; kudu "x" "DOWNLOADED"].

Definition ps_only_stray : list Parcel :=
  [base_1_4_0; kudu "x" "DOWNLOADED"].

Definition ps_no_upgrade : list Parcel :=
  [base_1_4_0; kudu "1.5.0-1" "DOWNLOADED"; kudu "1.4.0-0" "DOWNLOADED"].

Definition ps_no_baseline : list Parcel :=
  [kudu "1.4.0-2" "DOWNLOADED"; mkParcel "IMPALA" "2.0.0" "ACTIVATED" no_state].

Definition with_parcels (ps : list Parcel) : Run Scripted :=
  start (mkScripted [cluster1] ps []).

(** Sample runs of the driver: the parcel chosen, and the statuses the
    successive polls will report. *)
Definition chosen : Parcel := kudu "1.4.0-2" "DOWNLOADED".

Definition polls_then (polls : list Parcel) : Scripted :=
  mkScripted [cluster1] [] polls.

Definition world_distributes : Scripted :=
  polls_then [kudu "1.4.0-2" "DOWNLOADED"; kudu "1.4.0-2" "DISTRIBUTED";
              kudu "1.4.0-2" "ACTIVATED"].

Definition world_stalls : Scripted :=
  polls_then (repeat (kudu "1.4.0-2" "DOWNLOADED") 5).

Definition failed : Parcel :=
  mkParcel "KUDU" "1.4.0-2" "DOWNLOADED" (mkParcelState ["disk full"] 3 10).

Definition world_fails : Scripted :=
  polls_then [kudu "1.4.0-2" "DOWNLOADED"; failed].

Definition remote : Parcel := kudu "1.4.0-2" "AVAILABLE_REMOTELY".

Definition world_stalls_remote : Scripted :=
  polls_then (repeat remote 5).

Definition distributed : Parcel := kudu "1.4.0-2" "DISTRIBUTED".

Definition world_stalls_distributed : Scripted :=
  polls_then (repeat distributed 5).

Definition no_cluster : Scripted := mkScripted [] [] [].

Definition two_clusters : Scripted := mkScripted [cluster1; cluster2] [] [].

Definition one_cluster : Scripted := mkScripted [cluster1] [] [].

(* ================================================================= *)
(** ** A direct scanner, used to reason about the matcher *)

(** What is left of [s] after its longest prefix in [cs]. *)
Fixpoint skip (cs : charset) (s : string) : string :=
  match s with
  | String c s' => if in_charset cs c then skip cs s' else s
  | EmptyString => EmptyString
  end.

Definition after_number (s : string) : option string :=
  match s with
  | String c s' => if is_digit c then Some (skip Digit s') else None
  | EmptyString => None
  end.

Definition after_dot (s : string) : option string :=
  match s with
  | String c s' => if Ascii.eqb "." c then Some s' else None
  | EmptyString => None
  end.

Definition and_then {A B : Type} (o : option A) (f : A -> option B)
    : option B :=
  match o with
  | Some a => f a
  | None => None
  end.

(** What follows the leading triplet, when there is one. *)
Definition after_triplet (s : string) : option string :=
  and_then (after_number s) (fun r1 =>
  and_then (after_dot r1) (fun r1' =>
  and_then (after_number r1') (fun r2 =>
  and_then (after_dot r2) (fun r2' =>
  after_number r2')))).

Definition no_leading_digit (s : string) : Prop :=
  match s with
  | String c _ => is_digit c = false
  | EmptyString => True
  end.

(* ================================================================= *)
(** ** Further observations and sample worlds *)

(** Seconds spent sleeping, as recorded in a log. *)
Fixpoint slept (l : list event) : Z :=
  match l with
  | [] => 0
  | Sleep n :: l' => n + slept l'
  | _ :: l' => slept l'
  end.

(** The only things a wait for a stage does: fetch the status of its
    parcel, print a progress line, sleep one second. *)
Definition polling_event {pystr : PyStr} (cluster : Cluster) (parcel : Parcel)
    (e : event) : Prop :=
  e = GetParcel cluster (product parcel) (version parcel)
  \/ (exists s, e = Print (progress_line s))
  \/ e = Sleep 1.

(** A request of the driver for the parcel [p]. *)
Definition request_for (p : Parcel) (e : event) : Prop :=
  e = StartDownload p \/ e = StartDistribution p \/ e = Activate p.

(** A world whose client refuses every call but the status fetches, which
    follow a script, and the requests it is told to accept. *)
Record Flaky : Type := mkFlaky {
  fl_polls : list Parcel;
  fl_download : bool;
  fl_distribution : bool;
  fl_activation : bool
}.

Definition refused {A : Type} : Res A := Raise (Exception "refused").

Definition flaky_get_parcel (c : Cluster) (prod ver : string) (w : Flaky)
    : Res Parcel * Flaky :=
  match fl_polls w with
  | [] => (refused, w)
  | s :: rest =>
      (Ok s, mkFlaky rest (fl_download w) (fl_distribution w) (fl_activation w))
  end.

Definition flaky_request (accepts : Flaky -> bool) (p : Parcel) (w : Flaky)
    : Res unit * Flaky :=
  (if accepts w then Ok tt else refused, w).

#[export] Instance flaky_api : CmApi Flaky := {
  api_get_cluster := fun _ w => (refused, w);
  api_get_all_clusters := fun w => (refused, w);
  cluster_get_all_parcels := fun _ w => (refused, w);
  cluster_get_parcel := flaky_get_parcel;
  parcel_start_download := flaky_request fl_download;
  parcel_start_distribution := flaky_request fl_distribution;
  parcel_activate := flaky_request fl_activation;
  time_sleep := fun _ w => w
}.

Definition ps_mixed : list Parcel :=
  mkParcel "IMPALA" "9.9.9-9" "ACTIVATED" no_state :: ps_upgrade
    ++ [mkParcel "SPARK" "1.4.0-7" "DOWNLOADED" no_state].

Definition ps_upgrade_reordered : list Parcel :=
  [kudu "1.5.0-3" "DOWNLOADED"; kudu "1.4.0-3" "AVAILABLE_REMOTELY";
   kudu "1.4.0-2" "DOWNLOADED"; base_1_4_0].

Definition ps_tied : list Parcel :=
  [kudu "1.4.0-1" "DOWNLOADED"; kudu "1.4.0-3" "DOWNLOADED";
   kudu "1.4.0-2" "DOWNLOADED"; kudu "1.4.0-3" "DISTRIBUTED"].

Definition world_completes : Scripted :=
  polls_then [kudu "1.4.0-2" "DISTRIBUTED"; kudu "1.4.0-2" "ACTIVATED"].

Definition world_full_cycle : Scripted :=
  mkScripted [cluster1] ps_upgrade
    [kudu "1.4.0-3" "DOWNLOADED"; kudu "1.4.0-3" "DISTRIBUTED";
     kudu "1.4.0-3" "ACTIVATED"].

Definition default_args : Args := mkArgs "localhost" "admin" "admin" None 120.

(* ================================================================= *)
(** * Properties *)

(** ** Strings *)

Lemma append_assoc (a b c : string) : ((a ++ b) ++ c = a ++ (b ++ c))%string.
Proof.
  induction a as [|x a IH]; simpl; [reflexivity | now rewrite IH].
Qed.

Lemma append_nil_r (a : string) : (a ++ "")%string = a.
Proof.
  induction a as [|x a IH]; simpl; [reflexivity | now rewrite IH].
Qed.

Lemma length_append (a b : string) :
  String.length (a ++ b) = String.length a + String.length b.
Proof.
  induction a as [|x a IH]; simpl; [reflexivity | now rewrite IH].
Qed.

Lemma substring_all (a : string) : substring 0 (String.length a) a = a.
Proof.
  induction a as [|x a IH]; simpl; [reflexivity | now rewrite IH].
Qed.

Lemma substring_prefix (a b : string) :
  substring 0 (String.length (a ++ b) - String.length b) (a ++ b) = a.
Proof.
  rewrite length_append.
  replace (String.length a + String.length b - String.length b)
    with (String.length a) by lia.
  induction a as [|x a IH]; simpl.
  - destruct b; reflexivity.
  - now rewrite IH.
Qed.

(** The decimal numeral written for an integer reads back as that
    integer. *)
Lemma str_of_Z_reads_back (n : Z) :
  option_map Z.of_int (NilZero.int_of_string (str_of_Z n)) = Some n.
Proof.
  unfold str_of_Z. rewrite NilZero.isi.
  - cbn [option_map]. now rewrite DecimalZ.of_to.
  - destruct n as [|p|p]; cbn; try discriminate.
    intros [= H]. now apply (DecimalPos.Unsigned.to_uint_nonnil p).
  - destruct n as [|p|p]; cbn; try discriminate.
    intros [= H]. now apply (DecimalPos.Unsigned.to_uint_nonnil p).
Qed.

(** ** The matcher against the scanner *)

Lemma star_const {A : Type} (cs : charset) (s : string) (x : A) :
  star cs s (fun _ => Some x) = Some x.
Proof.
  induction s as [|c s IH]; simpl; [reflexivity|].
  destruct (in_charset cs c); [now rewrite IH | reflexivity].
Qed.

(** Greedy matching commits to the longest run when the rest succeeds
    there. *)
Lemma star_commit {A : Type} (cs : charset) (s : string)
    (k : string -> option A) (r : A) :
  k (skip cs s) = Some r -> star cs s k = Some r.
Proof.
  induction s as [|c s IH]; simpl; [trivial|].
  destruct (in_charset cs c); [|trivial].
  intros H. now rewrite (IH H).
Qed.

(** Backtracking into the run is useless when the rest cannot start with
    a character of the class. *)
Lemma star_blocked {A : Type} (cs : charset) (s : string)
    (k : string -> option A) :
  (forall c s', in_charset cs c = true -> k (String c s') = None) ->
  star cs s k = k (skip cs s).
Proof.
  intros Hk. induction s as [|c s IH]; simpl; [reflexivity|].
  destruct (in_charset cs c) eqn:E; [|reflexivity].
  rewrite IH. destruct (k (skip cs s)); [reflexivity | now apply Hk].
Qed.

Lemma digit_not_dot (c : ascii) : is_digit c = true -> Ascii.eqb "." c = false.
Proof.
  intros H. destruct (Ascii.eqb_spec "." c) as [<-|]; [|reflexivity].
  discriminate H.
Qed.

Lemma plus_digit_blocked {A : Type} (s : string) (k : string -> option A) :
  (forall c s', is_digit c = true -> k (String c s') = None) ->
  plus Digit s k = and_then (after_number s) k.
Proof.
  intros Hk. destruct s as [|c s]; simpl; [reflexivity|].
  destruct (is_digit c); [|reflexivity].
  now apply star_blocked.
Qed.

Lemma plus_digit_total {A : Type} (s : string) (k : string -> option A) :
  (forall s', k s' <> None) ->
  plus Digit s k = and_then (after_number s) k.
Proof.
  intros Hk. destruct s as [|c s]; simpl; [reflexivity|].
  destruct (is_digit c); [|reflexivity]. simpl.
  destruct (k (skip Digit s)) eqn:E; [now apply star_commit|].
  now destruct (Hk (skip Digit s)).
Qed.

Lemma one_dot {A : Type} (rest : list item) (s : string)
    (k : string -> option A) :
  match_items (One (Lit ".") :: rest) s k
  = and_then (after_dot s) (fun s' => match_items rest s' k).
Proof.
  destruct s as [|c s]; [reflexivity|].
  cbn [match_items in_charset after_dot].
  destruct (Ascii.eqb "." c); reflexivity.
Qed.

Lemma one_dot_blocked {A : Type} (rest : list item) (k : string -> option A)
    (c : ascii) (s' : string) :
  is_digit c = true -> match_items (One (Lit ".") :: rest) (String c s') k = None.
Proof.
  intros H. cbn [match_items in_charset]. now rewrite (digit_not_dot c H).
Qed.

Lemma match_items_plus {A : Type} (cs : charset) (rest : list item)
    (s : string) (k : string -> option A) :
  match_items (Plus cs :: rest) s k
  = plus cs s (fun s' => match_items rest s' k).
Proof. reflexivity. Qed.

Lemma match_tail_total (s after : string) :
  match_items release_tail after (fun _ =>
    Some (substring 0 (String.length s - String.length after) s))
  = Some (substring 0 (String.length s - String.length after) s).
Proof. apply star_const. Qed.

Lemma re_match_scan (s : string) :
  re_match_group1 s
  = and_then (after_triplet s) (fun rest =>
      Some (substring 0 (String.length s - String.length rest) s)).
Proof.
  unfold re_match_group1, release_group, after_triplet.
  rewrite match_items_plus.
  rewrite plus_digit_blocked by (intros; now apply one_dot_blocked).
  destruct (after_number s) as [r1|]; [|reflexivity]. cbn [and_then].
  rewrite one_dot.
  destruct (after_dot r1) as [r1'|]; [|reflexivity]. cbn [and_then].
  rewrite match_items_plus.
  rewrite plus_digit_blocked by (intros; now apply one_dot_blocked).
  destruct (after_number r1') as [r2|]; [|reflexivity]. cbn [and_then].
  rewrite one_dot.
  destruct (after_dot r2) as [r2'|]; [|reflexivity]. cbn [and_then].
  rewrite match_items_plus.
  rewrite plus_digit_total
    by (intros s'; cbn [match_items]; now rewrite match_tail_total).
  destruct (after_number r2') as [r3|]; [|reflexivity]. cbn [and_then].
  cbn [match_items]. apply match_tail_total.
Qed.

(** ** The scanner against the shape [digits.digits.digits] *)

Lemma skip_split (s : string) :
  exists d, all_digits d = true /\ s = (d ++ skip Digit s)%string /\
            no_leading_digit (skip Digit s).
Proof.
  induction s as [|c s (d & Hd & Hs & Hn)].
  - exists ""%string. repeat split.
  - cbn [skip in_charset]. destruct (is_digit c) eqn:E.
    + exists (String c d). cbn [all_digits]. rewrite E, Hd.
      repeat split; [|assumption]. cbn [append]. now rewrite <- Hs.
    + exists ""%string. repeat split. exact E.
Qed.

Lemma skip_app (d r : string) :
  all_digits d = true -> skip Digit (d ++ r) = skip Digit r.
Proof.
  induction d as [|c d IH]; cbn [append all_digits skip in_charset]; [trivial|].
  intros H. apply andb_prop in H as [Hc Hd]. rewrite Hc. now apply IH.
Qed.

Lemma skip_undotted (r : string) :
  no_leading_digit r -> skip Digit r = r.
Proof.
  destruct r as [|c r]; [reflexivity|]. cbn [no_leading_digit skip in_charset].
  now intros ->.
Qed.

Lemma after_number_inv (s r : string) :
  after_number s = Some r ->
  exists d, number d /\ s = (d ++ r)%string /\ no_leading_digit r.
Proof.
  destruct s as [|c s]; [discriminate|]. cbn [after_number].
  destruct (is_digit c) eqn:E; [|discriminate].
  intros [= <-]. destruct (skip_split s) as (d & Hd & Hs & Hn).
  exists (String c d). repeat split.
  - discriminate.
  - cbn [all_digits]. now rewrite E.
  - cbn [append]. now rewrite <- Hs.
  - exact Hn.
Qed.

Lemma after_number_app (d r : string) :
  number d -> after_number (d ++ r) = Some (skip Digit r).
Proof.
  intros [Hne Hd]. destruct d as [|c d]; [now destruct Hne|].
  cbn [all_digits] in Hd. apply andb_prop in Hd as [Hc Hd].
  cbn [append after_number]. rewrite Hc. now rewrite skip_app.
Qed.

Lemma after_dot_inv (s r : string) :
  after_dot s = Some r -> s = String "." r.
Proof.
  destruct s as [|c s]; [discriminate|]. cbn [after_dot].
  destruct (Ascii.eqb_spec "." c) as [<-|]; [|discriminate].
  now intros [= <-].
Qed.

Lemma dot_no_leading_digit (r : string) : no_leading_digit (String "." r).
Proof. reflexivity. Qed.

Lemma after_triplet_inv (s rest : string) :
  after_triplet s = Some rest ->
  exists d1 d2 d3,
    number d1 /\ number d2 /\ number d3 /\ no_leading_digit rest /\
    s = (d1 ++ "." ++ d2 ++ "." ++ d3 ++ rest)%string.
Proof.
  unfold after_triplet. intros H.
  destruct (after_number s) as [r1|] eqn:E1; [|discriminate]. cbn [and_then] in H.
  destruct (after_dot r1) as [r1'|] eqn:E2; [|discriminate]. cbn [and_then] in H.
  destruct (after_number r1') as [r2|] eqn:E3; [|discriminate]. cbn [and_then] in H.
  destruct (after_dot r2) as [r2'|] eqn:E4; [|discriminate]. cbn [and_then] in H.
  apply after_number_inv in E1 as (d1 & N1 & -> & _).
  apply after_dot_inv in E2 as ->.
  apply after_number_inv in E3 as (d2 & N2 & -> & _).
  apply after_dot_inv in E4 as ->.
  apply after_number_inv in H as (d3 & N3 & -> & Hn).
  exists d1, d2, d3. repeat split; try tauto; first [apply N1 | apply N2 | apply N3].
Qed.

Lemma after_triplet_intro (d1 d2 d3 rest : string) :
  number d1 -> number d2 -> number d3 ->
  after_triplet (d1 ++ "." ++ d2 ++ "." ++ d3 ++ rest) = Some (skip Digit rest).
Proof.
  intros N1 N2 N3. unfold after_triplet.
  rewrite (after_number_app d1 _ N1). cbn [and_then].
  rewrite skip_undotted by apply dot_no_leading_digit.
  change (after_dot ("." ++ d2 ++ "." ++ d3 ++ rest))
    with (Some (d2 ++ "." ++ d3 ++ rest)%string). cbn [and_then].
  rewrite (after_number_app d2 _ N2). cbn [and_then].
  rewrite skip_undotted by apply dot_no_leading_digit.
  change (after_dot ("." ++ d3 ++ rest)) with (Some (d3 ++ rest)%string).
  cbn [and_then]. now apply after_number_app.
Qed.

(** ** [get_release_version] *)

Lemma release_of_scan (v rest : string) :
  after_triplet v = Some rest ->
  get_release_version v
  = Ok (substring 0 (String.length v - String.length rest) v).
Proof.
  intros H. unfold get_release_version. now rewrite re_match_scan, H.
Qed.

Lemma release_malformed (v : string) :
  after_triplet v = None ->
  get_release_version v = Raise (Exception (malformed_msg v)).
Proof.
  intros H. unfold get_release_version. now rewrite re_match_scan, H.
Qed.

Lemma release_of_triplet (d1 d2 d3 rest : string) :
  number d1 -> number d2 -> number d3 -> no_leading_digit rest ->
  get_release_version (d1 ++ "." ++ d2 ++ "." ++ d3 ++ rest)
  = Ok (d1 ++ "." ++ d2 ++ "." ++ d3)%string.
Proof.
  intros N1 N2 N3 Hn.
  rewrite (release_of_scan _ rest).
  - replace (d1 ++ "." ++ d2 ++ "." ++ d3 ++ rest)%string
      with ((d1 ++ "." ++ d2 ++ "." ++ d3) ++ rest)%string.
    + now rewrite substring_prefix.
    + now rewrite !append_assoc.
  - rewrite after_triplet_intro by assumption. now rewrite skip_undotted.
Qed.

Lemma well_formed_iff (v : string) :
  well_formed v = true <-> has_leading_triplet v.
Proof.
  unfold well_formed. rewrite re_match_scan. split.
  - destruct (after_triplet v) as [rest|] eqn:E; [|discriminate]. intros _.
    apply after_triplet_inv in E as (d1 & d2 & d3 & N1 & N2 & N3 & _ & ->).
    now exists d1, d2, d3, rest.
  - intros (d1 & d2 & d3 & rest & N1 & N2 & N3 & ->).
    now rewrite after_triplet_intro.
Qed.

Lemma well_formed_release (v : string) :
  well_formed v = true -> exists r, get_release_version v = Ok r.
Proof.
  unfold well_formed, get_release_version.
  destruct (re_match_group1 v) as [g|]; [|discriminate]. now exists g.
Qed.

Lemma malformed_release (v : string) :
  well_formed v = false ->
  get_release_version v = Raise (Exception (malformed_msg v)).
Proof.
  unfold well_formed, get_release_version.
  now destruct (re_match_group1 v).
Qed.

(** C8. Release extraction returns the leading MAJOR.MINOR.PATCH triplet:
    on the documented example it gives "1.4.0"; on every string that
    starts with digits.digits.digits it succeeds with that triplet (the
    three digit runs taken as long as possible), and extracting again
    from the result gives the result back; on every string without such
    a prefix it raises the malformed-version exception. *)
Theorem release_extraction :
  get_release_version "1.4.0-1.cdh5.12.0.p0.814" = Ok "1.4.0"%string
  /\ (forall v, has_leading_triplet v ->
        exists d1 d2 d3 rest,
          number d1 /\ number d2 /\ number d3 /\ no_leading_digit rest /\
          v = (d1 ++ "." ++ d2 ++ "." ++ d3 ++ rest)%string /\
          get_release_version v = Ok (d1 ++ "." ++ d2 ++ "." ++ d3)%string /\
          get_release_version (d1 ++ "." ++ d2 ++ "." ++ d3)
          = Ok (d1 ++ "." ++ d2 ++ "." ++ d3)%string)
  /\ (forall v, ~ has_leading_triplet v ->
        get_release_version v = Raise (Exception (malformed_msg v))).
Proof.
  split; [reflexivity|]. split.
  - intros v Hv. apply well_formed_iff in Hv. unfold well_formed in Hv.
    rewrite re_match_scan in Hv.
    destruct (after_triplet v) as [rest|] eqn:E; [|discriminate].
    apply after_triplet_inv in E as (d1 & d2 & d3 & N1 & N2 & N3 & Hn & ->).
    exists d1, d2, d3, rest. repeat split; try tauto;
      try first [apply N1 | apply N2 | apply N3].
    + now apply release_of_triplet.
    + pose proof (release_of_triplet d1 d2 d3 "" N1 N2 N3 I) as H.
      now rewrite append_nil_r in H.
  - intros v Hv. apply malformed_release.
    destruct (well_formed v) eqn:E; [|reflexivity].
    now apply well_formed_iff in E.
Qed.

Lemma example_has_triplet : has_leading_triplet "1.4.0-1.cdh5.12.0.p0.814".
Proof.
  exists "1"%string, "4"%string, "0"%string, "-1.cdh5.12.0.p0.814"%string.
  repeat split; discriminate.
Qed.

Lemma short_has_no_triplet : ~ has_leading_triplet "1.4".
Proof.
  intros H. apply well_formed_iff in H. discriminate H.
Qed.

Lemma release_extraction_witness :
  (exists r,
     get_release_version "1.4.0-1.cdh5.12.0.p0.814" = Ok r /\
     get_release_version r = Ok r)
  /\ get_release_version "1.4" = Raise (Exception (malformed_msg "1.4")).
Proof.
  split.
  - destruct (proj1 (proj2 release_extraction) _ example_has_triplet)
      as (d1 & d2 & d3 & rest & _ & _ & _ & _ & _ & H1 & H2).
    exists (d1 ++ "." ++ d2 ++ "." ++ d3)%string. now split.
  - exact (proj2 (proj2 release_extraction) "1.4"%string short_has_no_triplet).
Defined.

(** ** The lexicographic order on versions *)

Lemma leb_refl (a : string) : (a <=? a)%string = true.
Proof.
  destruct (String.leb_total a a); assumption.
Qed.

Lemma leb_trans (a b c : string) :
  (a <=? b)%string = true -> (b <=? c)%string = true ->
  (a <=? c)%string = true.
Proof.
  revert b c. unfold String.leb.
  induction a as [|x a IH]; intros [|y b] [|z c]; cbn [String.compare];
    try easy.
  unfold Ascii.compare.
  destruct (N.compare_spec (N_of_ascii x) (N_of_ascii y)) as [E1|L1|G1];
    destruct (N.compare_spec (N_of_ascii y) (N_of_ascii z)) as [E2|L2|G2];
    destruct (N.compare_spec (N_of_ascii x) (N_of_ascii z)) as [E3|L3|G3];
    try easy; try lia.
  apply IH.
Qed.

Lemma ltb_false_leb (a b : string) :
  (a <? b)%string = false <-> (b <=? a)%string = true.
Proof.
  unfold String.ltb, String.leb. rewrite (String.compare_antisym b a).
  destruct (String.compare a b); cbn; split; congruence.
Qed.

Lemma ltb_true_leb (a b : string) :
  (a <? b)%string = true -> (a <=? b)%string = true.
Proof.
  unfold String.ltb, String.leb. destruct (String.compare a b); congruence.
Qed.

Lemma ltb_leb_trans (a b c : string) :
  (a <? b)%string = true -> (b <=? c)%string = true ->
  (a <? c)%string = true.
Proof.
  intros Hab Hbc. destruct (a <? c)%string eqn:E; [reflexivity|].
  apply ltb_false_leb in E.
  pose proof (leb_trans _ _ _ Hbc E) as Hba.
  apply ltb_false_leb in Hba. congruence.
Qed.

(** ** [max] with a key *)

Lemma max_from_in (best : Parcel) (rest : list Parcel) :
  In (max_from best rest) (best :: rest).
Proof.
  revert best. induction rest as [|p rest IH]; intros best; cbn [max_from].
  - now left.
  - destruct (IH (if (version best <? version p)%string then p else best))
      as [H|H].
    + rewrite <- H. destruct (version best <? version p)%string;
        [right; now left | now left].
    + right. now right.
Qed.

Lemma max_from_ge_best (best : Parcel) (rest : list Parcel) :
  (version best <=? version (max_from best rest))%string = true.
Proof.
  revert best. induction rest as [|p rest IH]; intros best; cbn [max_from].
  - apply leb_refl.
  - destruct (version best <? version p)%string eqn:E; [|apply IH].
    eapply leb_trans; [apply ltb_true_leb; exact E | apply IH].
Qed.

Lemma max_from_ge (best : Parcel) (rest : list Parcel) (x : Parcel) :
  In x (best :: rest) ->
  (version x <=? version (max_from best rest))%string = true.
Proof.
  revert best. induction rest as [|p rest IH]; intros best H.
  - destruct H as [->|[]]. apply leb_refl.
  - destruct H as [->|[->|H]].
    + apply max_from_ge_best.
    + cbn [max_from]. destruct (version best <? version x)%string eqn:E.
      * apply max_from_ge_best.
      * apply ltb_false_leb in E.
        eapply leb_trans; [exact E | apply max_from_ge_best].
    + cbn [max_from]. apply IH. now right.
Qed.

Lemma leb_ltb_trans (a b c : string) :
  (a <=? b)%string = true -> (b <? c)%string = true ->
  (a <? c)%string = true.
Proof.
  intros Hab Hbc. destruct (a <? c)%string eqn:E; [reflexivity|].
  apply ltb_false_leb in E.
  pose proof (leb_trans _ _ _ E Hab) as Hcb.
  apply ltb_false_leb in Hcb. congruence.
Qed.

(** The running maximum stops at the earliest record of greatest
    version. *)
Lemma max_from_split (rest : list Parcel) (best : Parcel) :
  exists l1 l2,
    best :: rest = l1 ++ max_from best rest :: l2
    /\ (forall x, In x l1 ->
          (version x <? version (max_from best rest))%string = true)
    /\ (forall x, In x l2 ->
          (version x <=? version (max_from best rest))%string = true).
Proof.
  revert best. induction rest as [|p rest IH]; intros best.
  - exists [], []. cbn. repeat split; intros x [].
  - cbn [max_from]. destruct (version best <? version p)%string eqn:E.
    + destruct (IH p) as (l1 & l2 & Es & H1 & H2).
      pose proof (max_from_ge_best p rest) as Hge.
      remember (max_from p rest) as m eqn:Em. clear Em IH.
      exists (best :: l1), l2. cbn [app]. rewrite <- Es.
      repeat split; [|exact H2].
      intros x [<-|Hx]; [|now apply H1].
      eapply ltb_leb_trans; [exact E | exact Hge].
    + apply ltb_false_leb in E.
      destruct (IH best) as (l1 & l2 & Es & H1 & H2).
      remember (max_from best rest) as m eqn:Em. clear Em IH.
      destruct l1 as [|b l1]; cbn [app] in Es; injection Es as Eb Er; subst.
      * exists [], (p :: l2). repeat split; [intros x [] |].
        intros x [<-|Hx]; [exact E | now apply H2].
      * exists (b :: p :: l1), l2. repeat split; [|exact H2].
        intros x [<-|[<-|Hx]].
        -- apply H1. now left.
        -- eapply leb_ltb_trans; [exact E | apply H1; now left].
        -- apply H1. now right.
Qed.

Lemma max_by_version_greatest (ps : list Parcel) :
  ps <> [] -> exists m, max_by_version ps = Ok m /\ greatest_of ps m.
Proof.
  destruct ps as [|p rest]; [congruence|]. intros _.
  exists (max_from p rest). repeat split.
  - apply max_from_in.
  - intros a. apply max_from_ge.
Qed.

(** Two greatest records carry the same version. *)
Lemma greatest_version_unique (ps : list Parcel) (a b : Parcel) :
  greatest_of ps a -> greatest_of ps b -> version a = version b.
Proof.
  intros [Ia Ha] [Ib Hb]. apply String.leb_antisym; auto.
Qed.

(** ** The classification loop *)

Lemma fold_classify (ps acts cands : list Parcel) :
  fold_left classify ps (acts, cands)
  = (acts ++ kudu_activated ps, cands ++ kudu_candidates ps).
Proof.
  revert acts cands. induction ps as [|p ps IH]; intros acts cands;
    cbn [fold_left kudu_activated kudu_candidates filter].
  - now rewrite !app_nil_r.
  - fold (kudu_activated ps). fold (kudu_candidates ps).
    unfold classify at 2. unfold is_kudu, is_activated.
    destruct (product p =? "KUDU")%string; cbn [andb negb]; [|apply IH].
    destruct (stage p =? "ACTIVATED")%string; cbn [negb];
      rewrite IH, <- app_assoc; reflexivity.
Qed.

Lemma split_parcels_filter (ps : list Parcel) :
  split_parcels ps = (kudu_activated ps, kudu_candidates ps).
Proof. apply fold_classify. Qed.

Lemma kudu_activated_product (ps : list Parcel) (p : Parcel) :
  In p (kudu_activated ps) -> product p = "KUDU"%string.
Proof.
  intros H. apply filter_In in H as [_ H].
  apply andb_prop in H as [H _]. now apply String.eqb_eq in H.
Qed.

(** ** The candidate filter *)

Lemma filter_candidates_version (b1 b2 : Parcel) (cs : list Parcel) :
  version b1 = version b2 ->
  filter_candidates b1 cs = filter_candidates b2 cs.
Proof.
  intros E. induction cs as [|c cs IH]; cbn [filter_candidates]; [reflexivity|].
  unfold release_versions_match. now rewrite E, IH.
Qed.

Lemma is_upgrade_of_version (b1 b2 p : Parcel) :
  version b1 = version b2 -> is_upgrade_of b1 p = is_upgrade_of b2 p.
Proof.
  intros E. unfold is_upgrade_of. now rewrite E.
Qed.

Lemma examined_version (b1 b2 : Parcel) (cs : list Parcel) :
  version b1 = version b2 -> examined b1 cs = examined b2 cs.
Proof.
  intros E. unfold examined. now rewrite E.
Qed.

Lemma is_upgrade_of_well_formed (base p : Parcel) :
  is_upgrade_of base p = true ->
  well_formed (version p) = true /\ well_formed (version base) = true.
Proof.
  unfold is_upgrade_of, get_release_version, well_formed.
  destruct (re_match_group1 (version p)); [|discriminate].
  destruct (re_match_group1 (version base)); [|discriminate]. now split.
Qed.

(** When every examined version is well formed the comprehension is a
    plain filter. *)
Lemma filter_candidates_ok (base : Parcel) (cs : list Parcel) :
  (forall v, In v (examined base cs) -> well_formed v = true) ->
  filter_candidates base cs = Ok (filter (is_upgrade_of base) cs).
Proof.
  induction cs as [|c cs IH]; intros Hwf; [reflexivity|].
  cbn [filter_candidates filter].
  destruct (well_formed_release (version c)) as [r1 E1];
    [apply Hwf; now left|].
  destruct (well_formed_release (version base)) as [r2 E2];
    [apply Hwf; right; now left|].
  assert (U : is_upgrade_of base c
              = (r1 =? r2)%string && (version base <? version c)%string)
    by (unfold is_upgrade_of; now rewrite E1, E2).
  rewrite IH by (intros v Hv; apply Hwf; right; now right).
  unfold release_versions_match. rewrite E1, E2. cbn [bindR].
  now rewrite U.
Qed.

(** The first malformed version that is examined makes the comprehension
    raise. *)
Lemma filter_candidates_raise (base : Parcel) (cs : list Parcel) :
  (exists v, In v (examined base cs) /\ well_formed v = false) ->
  exists bad,
    In bad (examined base cs) /\ well_formed bad = false /\
    filter_candidates base cs = Raise (Exception (malformed_msg bad)).
Proof.
  induction cs as [|c cs IH]; intros (v & Hin & Hv); [destruct Hin|].
  cbn [filter_candidates]. unfold release_versions_match.
  destruct (well_formed (version c)) eqn:Wc.
  - destruct (well_formed_release _ Wc) as [r1 E1]. rewrite E1. cbn [bindR].
    destruct (well_formed (version base)) eqn:Wb.
    + destruct (well_formed_release _ Wb) as [r2 E2]. rewrite E2. cbn [bindR].
      destruct IH as (bad & Hbad & Wbad & E).
      * exists v. split; [|assumption].
        destruct Hin as [E0|[E0|Hin]]; subst; [congruence|congruence|exact Hin].
      * exists bad. rewrite E. repeat split; [right; now right | assumption].
    + exists (version base). rewrite (malformed_release _ Wb).
      repeat split; [right; now left | assumption].
  - exists (version c). rewrite (malformed_release _ Wc).
    repeat split; [now left | assumption].
Qed.

(** ** One run of the selection *)

Section Selection.

Context {W : Type} {api : CmApi W}.

Variables (cluster : Cluster) (st : Run W) (ps : list Parcel) (w' : W).

Hypothesis Hall : cluster_get_all_parcels cluster (world st) = (Ok ps, w').

Let st1 : Run W := mkRun w' (log st ++ [GetAllParcels cluster]).

Lemma selection_run :
  get_best_upgrade_candidate_parcel cluster st
  = match kudu_activated ps with
    | [] => (Raise (Exception no_activated_msg), st1)
    | a :: rest =>
        let ga := max_from a rest in
        match filter_candidates ga (kudu_candidates ps) with
        | Raise e => (Raise e, st1)
        | Ok [] => (Raise (Exception (no_candidates_msg ga)), st1)
        | Ok (c :: cs) =>
            (Ok (max_from c cs),
             mkRun w' (log st1 ++ [Print (chose_line (max_from c cs))]))
        end
    end.
Proof.
  unfold get_best_upgrade_candidate_parcel, bind at 1, call. rewrite Hall.
  fold st1. rewrite split_parcels_filter.
  destruct (kudu_activated ps) as [|a rest]; [reflexivity|].
  cbn [List.length Nat.ltb Nat.leb max_by_version].
  unfold bind at 1, lift at 1. unfold bind at 1, lift at 1.
  destruct (filter_candidates (max_from a rest) (kudu_candidates ps))
    as [[|c cs]|e]; reflexivity.
Qed.

Lemma selection_baseline (base : Parcel) :
  greatest_of (kudu_activated ps) base ->
  exists a rest,
    kudu_activated ps = a :: rest /\
    version (max_from a rest) = version base /\
    product (max_from a rest) = product base.
Proof.
  intros Hb. destruct (kudu_activated ps) as [|a rest] eqn:E.
  - destruct Hb as [[] _].
  - exists a, rest. split; [reflexivity|].
    destruct (max_by_version_greatest (a :: rest)) as (m & Hm & Hg);
      [discriminate|].
    injection Hm as <-. split.
    + now apply (greatest_version_unique (a :: rest)).
    + rewrite (kudu_activated_product ps (max_from a rest)),
        (kudu_activated_product ps base); trivial;
        rewrite E; [apply Hb | apply Hg].
Qed.

End Selection.

Lemma examined_well_formed (base : Parcel) (cands : list Parcel) :
  (forall c, In c cands -> well_formed (version c) = true) ->
  (cands <> [] -> well_formed (version base) = true) ->
  forall v, In v (examined base cands) -> well_formed v = true.
Proof.
  intros Hc Hb v Hv. apply in_flat_map in Hv as (c & Hin & [<-|[<-|[]]]).
  - now apply Hc.
  - apply Hb. intros ->. destruct Hin.
Qed.

Lemma main_selection_raises {W : Type} {api : CmApi W} {pystr : PyStr}
    (args : Args) (cluster : Cluster) (st0 st st' : Run W) (e : exn) :
  find_cluster (arg_cluster args) st0 = (Ok cluster, st) ->
  get_best_upgrade_candidate_parcel cluster st = (Raise e, st') ->
  main args st0 = (Raise e, st').
Proof.
  intros Hf Hs. unfold main, bind at 1. rewrite Hf.
  unfold bind at 1. now rewrite Hs.
Qed.

(** ** Theorems on the selection *)

(** C6. When no KUDU record has stage ACTIVATED, the selection raises the
    no-activated-parcel exception, whatever the other records are; the
    only thing it did was to ask for the parcels. *)
Theorem no_baseline_error {W : Type} {api : CmApi W}
    (cluster : Cluster) (st : Run W) (ps : list Parcel) (w' : W) :
  cluster_get_all_parcels cluster (world st) = (Ok ps, w') ->
  kudu_activated ps = [] ->
  get_best_upgrade_candidate_parcel cluster st
  = (Raise (Exception no_activated_msg),
     mkRun w' (log st ++ [GetAllParcels cluster])).
Proof.
  intros Hall Hnone. rewrite (selection_run cluster st ps w' Hall).
  now rewrite Hnone.
Qed.

(** C1 (amended). With at least one ACTIVATED KUDU record, [base] one of
    greatest version among them, every non-ACTIVATED KUDU record's version
    matching the release pattern, and at least one non-ACTIVATED KUDU
    record of the same release as [base] and a greater version: the
    selection returns such a record whose version is the greatest among
    them, after printing its identity; among the records of that greatest
    version it is the first in list order (every such record before it
    has a strictly smaller version). *)
Theorem best_candidate_selected {W : Type} {api : CmApi W}
    (cluster : Cluster) (st : Run W) (ps : list Parcel) (w' : W)
    (base : Parcel) :
  cluster_get_all_parcels cluster (world st) = (Ok ps, w') ->
  greatest_of (kudu_activated ps) base ->
  (forall c, In c (kudu_candidates ps) -> well_formed (version c) = true) ->
  (exists c, In c (kudu_candidates ps) /\ is_upgrade_of base c = true) ->
  exists best,
    get_best_upgrade_candidate_parcel cluster st
    = (Ok best,
       mkRun w' (log st ++ [GetAllParcels cluster; Print (chose_line best)]))
    /\ In best (kudu_candidates ps)
    /\ is_upgrade_of base best = true
    /\ (forall c, In c (kudu_candidates ps) -> is_upgrade_of base c = true ->
          (version c <=? version best)%string = true)
    /\ exists before after,
         filter (is_upgrade_of base) (kudu_candidates ps)
         = before ++ best :: after
         /\ (forall x, In x before ->
               (version x <? version best)%string = true)
         /\ (forall x, In x after ->
               (version x <=? version best)%string = true).
Proof.
  intros Hall Hbase Hwf (c0 & Hc0 & Uc0).
  rewrite (selection_run cluster st ps w' Hall).
  destruct (selection_baseline ps base Hbase) as (a & rest & -> & Ev & _).
  cbv zeta. rewrite (filter_candidates_version _ base) by exact Ev.
  rewrite filter_candidates_ok.
  2:{ apply examined_well_formed; [exact Hwf|]. intros _.
      now apply (is_upgrade_of_well_formed base c0). }
  destruct (filter (is_upgrade_of base) (kudu_candidates ps)) as [|c cs] eqn:F.
  - assert (H : In c0 (filter (is_upgrade_of base) (kudu_candidates ps)))
      by (apply filter_In; now split).
    rewrite F in H. destruct H.
  - exists (max_from c cs).
    assert (Hin : In (max_from c cs)
                    (filter (is_upgrade_of base) (kudu_candidates ps)))
      by (rewrite F; apply max_from_in).
    apply filter_In in Hin as [Hin Hup].
    split; [|split; [exact Hin | split; [exact Hup | split]]].
    + cbn [log]. now rewrite <- app_assoc.
    + intros x Hx Ux. apply max_from_ge. rewrite <- F.
      apply filter_In. now split.
    + apply max_from_split.
Qed.

(** C7 (amended). With at least one ACTIVATED KUDU record, [base] one of
    greatest version among them, every version handed to the release
    extraction matching the pattern, and no non-ACTIVATED KUDU record both
    of the same release as [base] and of a greater version: the selection
    raises the no-candidate exception naming [base]'s product and
    version. *)
Theorem no_candidate_error {W : Type} {api : CmApi W}
    (cluster : Cluster) (st : Run W) (ps : list Parcel) (w' : W)
    (base : Parcel) :
  cluster_get_all_parcels cluster (world st) = (Ok ps, w') ->
  greatest_of (kudu_activated ps) base ->
  (forall v, In v (examined base (kudu_candidates ps)) ->
             well_formed v = true) ->
  (forall c, In c (kudu_candidates ps) -> is_upgrade_of base c = false) ->
  get_best_upgrade_candidate_parcel cluster st
  = (Raise (Exception (no_candidates_msg base)),
     mkRun w' (log st ++ [GetAllParcels cluster])).
Proof.
  intros Hall Hbase Hwf Hnone.
  rewrite (selection_run cluster st ps w' Hall).
  destruct (selection_baseline ps base Hbase) as (a & rest & -> & Ev & Ep).
  cbv zeta. rewrite (filter_candidates_version _ base) by exact Ev.
  rewrite filter_candidates_ok by exact Hwf.
  destruct (filter (is_upgrade_of base) (kudu_candidates ps)) as [|c cs] eqn:F.
  - unfold no_candidates_msg. now rewrite Ev, Ep.
  - assert (H : In c (filter (is_upgrade_of base) (kudu_candidates ps)))
      by (rewrite F; now left).
    apply filter_In in H as [Hin Hup]. rewrite (Hnone c Hin) in Hup.
    discriminate.
Qed.

(** C2 (amended). With [base] an ACTIVATED KUDU record of greatest
    version: if one of the versions handed to the release extraction (a
    candidate's or, when there is at least one candidate, the baseline's)
    does not match the pattern, the selection raises the malformed-version
    exception for an examined version that does not match, and [main],
    which catches nothing, ends with that exception right there. *)
Theorem malformed_version_aborts {W : Type} {api : CmApi W}
    (cluster : Cluster) (st : Run W) (ps : list Parcel) (w' : W)
    (base : Parcel) (v : string) :
  cluster_get_all_parcels cluster (world st) = (Ok ps, w') ->
  greatest_of (kudu_activated ps) base ->
  In v (examined base (kudu_candidates ps)) ->
  well_formed v = false ->
  exists bad,
    In bad (examined base (kudu_candidates ps))
    /\ well_formed bad = false
    /\ get_best_upgrade_candidate_parcel cluster st
       = (Raise (Exception ("Could not get the release version from " ++ bad ++ ".")),
          mkRun w' (log st ++ [GetAllParcels cluster]))
    /\ forall (pystr : PyStr) (args : Args) (st0 : Run W),
         find_cluster (arg_cluster args) st0 = (Ok cluster, st) ->
         main args st0
         = (Raise (Exception ("Could not get the release version from " ++ bad ++ ".")),
            mkRun w' (log st ++ [GetAllParcels cluster])).
Proof.
  intros Hall Hbase Hin Hv.
  destruct (filter_candidates_raise base (kudu_candidates ps))
    as (bad & Hbad & Wbad & E); [now exists v|].
  assert (Hsel : get_best_upgrade_candidate_parcel cluster st
                 = (Raise (Exception ("Could not get the release version from " ++ bad ++ ".")),
                    mkRun w' (log st ++ [GetAllParcels cluster]))).
  { rewrite (selection_run cluster st ps w' Hall).
    destruct (selection_baseline ps base Hbase) as (a & rest & -> & Ev & _).
    cbv zeta. rewrite (filter_candidates_version _ base) by exact Ev.
    now rewrite E. }
  exists bad. repeat split; try assumption.
  intros pystr args st0 Hf. now apply (main_selection_raises args cluster st0 st).
Qed.

(** *** The selection on sample parcel lists *)

Lemma greatest_singleton (ps : list Parcel) (base : Parcel) :
  ps = [base] -> greatest_of ps base.
Proof.
  intros ->. split; [now left|]. intros a [<-|[]]. apply leb_refl.
Defined.

Lemma no_baseline_error_witness :
  get_best_upgrade_candidate_parcel cluster1 (with_parcels ps_no_baseline)
  = (Raise (Exception no_activated_msg),
     mkRun (mkScripted [cluster1] ps_no_baseline []) [GetAllParcels cluster1]).
Proof.
  apply (no_baseline_error cluster1 (with_parcels ps_no_baseline)
           ps_no_baseline); reflexivity.
Defined.

Lemma best_candidate_selected_witness :
  (exists best,
     get_best_upgrade_candidate_parcel cluster1 (with_parcels ps_upgrade_tied)
     = (Ok best,
        mkRun (mkScripted [cluster1] ps_upgrade_tied [])
          [GetAllParcels cluster1; Print (chose_line best)])
     /\ In best (kudu_candidates ps_upgrade_tied)
     /\ is_upgrade_of base_1_4_0 best = true
     /\ (forall c, In c (kudu_candidates ps_upgrade_tied) ->
           is_upgrade_of base_1_4_0 c = true ->
           (version c <=? version best)%string = true)
     /\ exists before after,
          filter (is_upgrade_of base_1_4_0) (kudu_candidates ps_upgrade_tied)
          = before ++ best :: after
          /\ (forall x, In x before ->
                (version x <? version best)%string = true)
          /\ (forall x, In x after ->
                (version x <=? version best)%string = true))
  /\ get_best_upgrade_candidate_parcel cluster1 (with_parcels ps_upgrade_tied)
     = (Ok (kudu "1.4.0-3" "DOWNLOADED"),
        mkRun (mkScripted [cluster1] ps_upgrade_tied [])
          [GetAllParcels cluster1;
           Print "Chose the new parcel KUDU-1.4.0-3 (Stage: DOWNLOADED)."]).
Proof.
  split; [|reflexivity].
  apply (best_candidate_selected cluster1 (with_parcels ps_upgrade_tied)
           ps_upgrade_tied (mkScripted [cluster1] ps_upgrade_tied [])
           base_1_4_0).
  - reflexivity.
  - now apply greatest_singleton.
  - intros c [<-|[<-|[<-|[]]]]; reflexivity.
  - exists (kudu "1.4.0-3" "DISTRIBUTED").
    split; [right; right; now left | reflexivity].
Defined.

(** Without the hypothesis on the other candidates the statement fails:
    a well-formed upgrade candidate exists next to a KUDU record whose
    version does not match the pattern, and the selection raises instead
    of returning it. *)
Lemma best_candidate_counterexample :
  greatest_of (kudu_activated ps_stray) base_1_4_0
  /\ In (kudu "1.4.0-2" "DOWNLOADED") (kudu_candidates ps_stray)
  /\ is_upgrade_of base_1_4_0 (kudu "1.4.0-2" "DOWNLOADED") = true
  /\ fst (get_best_upgrade_candidate_parcel cluster1 (with_parcels ps_stray))
     = Raise (Exception "Could not get the release version from x.")
  /\ forall best,
       fst (get_best_upgrade_candidate_parcel cluster1 (with_parcels ps_stray))
       <> Ok best.
Proof.
  split; [now apply greatest_singleton|].
  split; [now left|]. split; [reflexivity|]. split; [reflexivity|].
  intros best. discriminate.
Qed.

Lemma no_candidate_error_witness :
  get_best_upgrade_candidate_parcel cluster1 (with_parcels ps_no_upgrade)
  = (Raise (Exception (no_candidates_msg base_1_4_0)),
     mkRun (mkScripted [cluster1] ps_no_upgrade []) [GetAllParcels cluster1]).
Proof.
  apply (no_candidate_error cluster1 (with_parcels ps_no_upgrade)
           ps_no_upgrade (mkScripted [cluster1] ps_no_upgrade []) base_1_4_0).
  - reflexivity.
  - now apply greatest_singleton.
  - intros v [<-|[<-|[<-|[<-|[]]]]]; reflexivity.
  - intros c [<-|[<-|[]]]; reflexivity.
Defined.

(** Without the hypothesis on the examined versions the statement fails:
    no record is an upgrade of the baseline, yet the exception raised is
    the malformed-version one, not the no-candidate one. *)
Lemma no_candidate_counterexample :
  greatest_of (kudu_activated ps_only_stray) base_1_4_0
  /\ (forall c, In c (kudu_candidates ps_only_stray) ->
                is_upgrade_of base_1_4_0 c = false)
  /\ fst (get_best_upgrade_candidate_parcel cluster1
            (with_parcels ps_only_stray))
     = Raise (Exception "Could not get the release version from x.")
  /\ fst (get_best_upgrade_candidate_parcel cluster1
            (with_parcels ps_only_stray))
     <> Raise (Exception (no_candidates_msg base_1_4_0)).
Proof.
  split; [now apply greatest_singleton|].
  split; [intros c [<-|[]]; reflexivity|].
  split; [reflexivity | discriminate].
Qed.

Lemma malformed_version_aborts_witness :
  (exists bad,
     In bad (examined base_1_4_0 (kudu_candidates ps_only_stray))
     /\ well_formed bad = false
     /\ get_best_upgrade_candidate_parcel cluster1 (with_parcels ps_only_stray)
        = (Raise (Exception ("Could not get the release version from "
                             ++ bad ++ ".")),
           mkRun (mkScripted [cluster1] ps_only_stray [])
             [GetAllParcels cluster1])
     /\ forall (pystr : PyStr) (args : Args) (st0 : Run Scripted),
          find_cluster (arg_cluster args) st0
          = (Ok cluster1, with_parcels ps_only_stray) ->
          main args st0
          = (Raise (Exception ("Could not get the release version from "
                               ++ bad ++ ".")),
             mkRun (mkScripted [cluster1] ps_only_stray [])
               [GetAllParcels cluster1]))
  /\ get_best_upgrade_candidate_parcel cluster1 (with_parcels ps_only_stray)
     = (Raise (Exception "Could not get the release version from x."),
        mkRun (mkScripted [cluster1] ps_only_stray [])
          [GetAllParcels cluster1]).
Proof.
  split; [|reflexivity].
  apply (malformed_version_aborts cluster1 (with_parcels ps_only_stray)
           ps_only_stray (mkScripted [cluster1] ps_only_stray [])
           base_1_4_0 "x").
  - reflexivity.
  - now apply greatest_singleton.
  - now left.
  - reflexivity.
Defined.

(** The baseline's version is not examined when there is no candidate: a
    single ACTIVATED record whose version does not match the pattern gives
    the no-candidate exception, not the malformed-version one. *)
Lemma malformed_baseline_counterexample :
  greatest_of (kudu_activated ps_bad_baseline) (kudu "bad" "ACTIVATED")
  /\ well_formed (version (kudu "bad" "ACTIVATED")) = false
  /\ get_best_upgrade_candidate_parcel cluster1 (with_parcels ps_bad_baseline)
     = (Raise (Exception
                 "No upgrade candidates available for parcel version KUDU-bad."),
        mkRun (mkScripted [cluster1] ps_bad_baseline [])
          [GetAllParcels cluster1])
  /\ fst (get_best_upgrade_candidate_parcel cluster1
            (with_parcels ps_bad_baseline))
     <> Raise (Exception "Could not get the release version from bad.").
Proof.
  split; [now apply greatest_singleton|].
  split; [reflexivity|]. split; [reflexivity | discriminate].
Qed.

(** ** The polling loop *)

Lemma fetches_app (a b : list event) :
  fetches (a ++ b) = fetches a + fetches b.
Proof.
  unfold fetches. now rewrite filter_app, length_app.
Qed.

Lemma actions_app (a b : list event) :
  actions (a ++ b) = actions a ++ actions b.
Proof. apply filter_app. Qed.

Lemma run_eta {W : Type} (st : Run W) : mkRun (world st) (log st) = st.
Proof. now destruct st. Qed.

Section Polling.

Context {W : Type} {api : CmApi W} {pystr : PyStr}.

Variables (cluster : Cluster) (parcel : Parcel).

Let fetch_ev : event := GetParcel cluster (product parcel) (version parcel).

(** One iteration of the loop. *)
Lemma poll_loop_step (target : string) (max_time : Z) (n : nat) (st : Run W) :
  poll_loop cluster parcel target max_time (S n) st
  = match cluster_get_parcel cluster (product parcel) (version parcel)
            (world st) with
    | (Ok s, w1) =>
        if (stage s =? target)%string then
          (Ok tt, mkRun w1 (log st ++ [fetch_ev]))
        else if truthy_list (errors (state s)) then
          (Raise (Exception (fetch_error_msg s)),
           mkRun w1 (log st ++ [fetch_ev]))
        else
          poll_loop cluster parcel target max_time n
            (mkRun (time_sleep 1 w1)
               (log st ++ [fetch_ev; Print (progress_line s); Sleep 1]))
    | (Raise e, w1) => (Raise e, mkRun w1 (log st ++ [fetch_ev]))
    end.
Proof.
  cbn [poll_loop]. unfold bind at 1, call at 1.
  destruct (cluster_get_parcel cluster (product parcel) (version parcel)
              (world st)) as [[s|e] w1]; [|reflexivity].
  destruct (stage s =? target)%string; [reflexivity|].
  destruct (truthy_list (errors (state s))); [reflexivity|].
  unfold bind at 1, print at 1. unfold bind at 1, call at 1.
  cbn [world log]. now rewrite <- !app_assoc.
Qed.

(** [k] quiet polls leave the loop where it was, [k] attempts later. *)
Lemma poll_loop_quiet (target : string) (max_time : Z) (k n : nat)
    (st : Run W) (w' : W) :
  after_quiet_polls cluster parcel target k (world st) = Some w' ->
  exists l,
    poll_loop cluster parcel target max_time (k + n) st
    = poll_loop cluster parcel target max_time n (mkRun w' (log st ++ l))
    /\ fetches l = k /\ actions l = [].
Proof.
  revert st. induction k as [|k IH]; intros st H.
  - injection H as <-. exists []. rewrite app_nil_r, run_eta. now repeat split.
  - cbn [after_quiet_polls] in H. cbn [Nat.add]. rewrite poll_loop_step.
    destruct (cluster_get_parcel cluster (product parcel) (version parcel)
                (world st)) as [[s|e] w1]; [|discriminate].
    destruct (quiet target s) eqn:Q; [|discriminate].
    unfold quiet in Q. apply andb_prop in Q as [Q1 Q2].
    apply negb_true_iff in Q1, Q2. rewrite Q1, Q2.
    destruct (IH (mkRun (time_sleep 1 w1)
                    (log st ++ [fetch_ev; Print (progress_line s); Sleep 1])) H)
      as (l & E & Hf & Ha).
    exists ([fetch_ev; Print (progress_line s); Sleep 1] ++ l).
    rewrite E. cbn [log]. rewrite <- app_assoc. repeat split.
    + rewrite fetches_app, Hf. reflexivity.
    + rewrite actions_app, Ha. reflexivity.
Qed.

(** The loop only fetches, prints and sleeps. *)
Lemma poll_loop_frame (target : string) (max_time : Z) (n : nat) (st : Run W) :
  exists l,
    log (snd (poll_loop cluster parcel target max_time n st)) = log st ++ l
    /\ actions l = [] /\ fetches l <= n.
Proof.
  revert st. induction n as [|n IH]; intros st.
  - exists []. cbn. rewrite app_nil_r. repeat split. lia.
  - rewrite poll_loop_step.
    destruct (cluster_get_parcel cluster (product parcel) (version parcel)
                (world st)) as [[s|e] w1].
    + destruct (stage s =? target)%string;
        [exists [fetch_ev]; cbn; repeat split; lia|].
      destruct (truthy_list (errors (state s)));
        [exists [fetch_ev]; cbn; repeat split; lia|].
      destruct (IH (mkRun (time_sleep 1 w1)
                      (log st ++ [fetch_ev; Print (progress_line s); Sleep 1])))
        as (l & E & Ha & Hf).
      exists ([fetch_ev; Print (progress_line s); Sleep 1] ++ l).
      rewrite E. cbn [log]. rewrite <- app_assoc. repeat split.
      * rewrite actions_app, Ha. reflexivity.
      * rewrite fetches_app.
        change (fetches [fetch_ev; Print (progress_line s); Sleep 1]) with 1.
        lia.
    + exists [fetch_ev]. cbn. repeat split. lia.
Qed.

(** The outcome of the attempt that follows [k] quiet polls, with the
    message as the loop builds it. *)
Lemma poll_attempt_run (target : string) (max_time : Z) (k : nat)
    (st : Run W) (w_k w_after : W) (s : Parcel) :
  k < Z.to_nat max_time ->
  after_quiet_polls cluster parcel target k (world st) = Some w_k ->
  cluster_get_parcel cluster (product parcel) (version parcel) w_k
  = (Ok s, w_after) ->
  exists l,
    fetches l = k /\ actions l = []
    /\ (stage s = target ->
        wait_for_parcel_stage cluster parcel target max_time st
        = (Ok tt, mkRun w_after (log st ++ l ++ [fetch_ev])))
    /\ (stage s <> target -> errors (state s) <> [] ->
        wait_for_parcel_stage cluster parcel target max_time st
        = (Raise (Exception (fetch_error_msg s)),
           mkRun w_after (log st ++ l ++ [fetch_ev]))).
Proof.
  intros Hk Hq Hs. unfold wait_for_parcel_stage.
  replace (Z.to_nat max_time) with (k + S (Z.to_nat max_time - S k)) by lia.
  destruct (poll_loop_quiet target max_time k (S (Z.to_nat max_time - S k))
              st w_k Hq) as (l & E & Hf & Ha).
  exists l. rewrite E, poll_loop_step. cbn [world log]. rewrite Hs.
  rewrite <- app_assoc. repeat split; try assumption.
  - intros Ht. apply String.eqb_eq in Ht. now rewrite Ht.
  - intros Ht He. apply String.eqb_neq in Ht. rewrite Ht.
    destruct (errors (state s)); [now destruct He | reflexivity].
Qed.

(** C5. On the attempt that follows [k] quiet polls, within the budget:
    when the fetched status has the target stage the wait returns at once;
    when it has another stage and a non-empty error list the wait raises
    at once, and the message of the exception carries the error list.  In
    both cases this fetch, the [k+1]-th, is the last thing the wait
    does. *)
Theorem poll_attempt_outcome (target : string) (max_time : Z) (k : nat)
    (st : Run W) (w_k w_after : W) (s : Parcel) :
  k < Z.to_nat max_time ->
  after_quiet_polls cluster parcel target k (world st) = Some w_k ->
  cluster_get_parcel cluster (product parcel) (version parcel) w_k
  = (Ok s, w_after) ->
  exists l,
    fetches l = k /\ actions l = []
    /\ (stage s = target ->
        wait_for_parcel_stage cluster parcel target max_time st
        = (Ok tt, mkRun w_after (log st ++ l ++ [fetch_ev])))
    /\ (stage s <> target -> errors (state s) <> [] ->
        wait_for_parcel_stage cluster parcel target max_time st
        = (Raise (Exception ("Fetching parcel resulted in error "
                         ++ str_of_list (errors (state s)))),
           mkRun w_after (log st ++ l ++ [fetch_ev]))).
Proof.
  exact (poll_attempt_run target max_time k st w_k w_after s).
Qed.

(** The wait fails with the timeout exception after exactly [max_time]
    quiet polls. *)
Lemma wait_times_out (target : string) (max_time : Z) (st : Run W) (w' : W) :
  after_quiet_polls cluster parcel target (Z.to_nat max_time) (world st)
  = Some w' ->
  exists l,
    wait_for_parcel_stage cluster parcel target max_time st
    = (Raise (Exception (timeout_msg parcel target max_time)),
       mkRun w' (log st ++ l))
    /\ fetches l = Z.to_nat max_time /\ actions l = [].
Proof.
  intros Hq. unfold wait_for_parcel_stage.
  destruct (poll_loop_quiet target max_time (Z.to_nat max_time) 0 st w' Hq)
    as (l & E & Hf & Ha).
  rewrite Nat.add_0_r in E. exists l. rewrite E. now repeat split.
Qed.

End Polling.

(** ** The stage driver *)

Section Driver.

Context {W : Type} {api : CmApi W} {pystr : PyStr}.

Variables (cluster : Cluster) (parcel : Parcel).

Let fetch_ev : event := GetParcel cluster (product parcel) (version parcel).

Lemma ensure_steps (max_time : Z) :
  ensure_parcel_activated cluster parcel max_time
  = (ps1 <- download_step cluster parcel max_time (stage parcel) ;;
     ps2 <- distribute_step cluster parcel max_time ps1 ;;
     activate_step cluster parcel max_time ps2).
Proof. reflexivity. Qed.

(** A print, a request, a wait and a print, followed by a result. *)
Lemma phase_run {A : Type} (m1 m2 target : string) (ev : event)
    (act : W -> Res unit * W) (max_time : Z) (a : A) (st : Run W) :
  (print m1 ;; call ev act ;;
   wait_for_parcel_stage cluster parcel target max_time ;;
   print m2 ;; ret a) st
  = match act (world st) with
    | (Raise e, w1) => (Raise e, mkRun w1 (log st ++ [Print m1; ev]))
    | (Ok _, w1) =>
        match wait_for_parcel_stage cluster parcel target max_time
                (mkRun w1 (log st ++ [Print m1; ev])) with
        | (Raise e, st2) => (Raise e, st2)
        | (Ok _, st2) => (Ok a, mkRun (world st2) (log st2 ++ [Print m2]))
        end
    end.
Proof.
  unfold bind at 1, print at 1. unfold bind at 1, call at 1. cbn [world log].
  rewrite <- app_assoc. cbn [app].
  destruct (act (world st)) as [[u|e] w1]; [|reflexivity].
  unfold bind at 1.
  destruct (wait_for_parcel_stage cluster parcel target max_time
              (mkRun w1 (log st ++ [Print m1; ev]))) as [[u'|e] st2];
    reflexivity.
Qed.

Lemma phase_run_last (m1 m2 target : string) (ev : event)
    (act : W -> Res unit * W) (max_time : Z) (st : Run W) :
  (print m1 ;; call ev act ;;
   wait_for_parcel_stage cluster parcel target max_time ;;
   print m2) st
  = match act (world st) with
    | (Raise e, w1) => (Raise e, mkRun w1 (log st ++ [Print m1; ev]))
    | (Ok _, w1) =>
        match wait_for_parcel_stage cluster parcel target max_time
                (mkRun w1 (log st ++ [Print m1; ev])) with
        | (Raise e, st2) => (Raise e, st2)
        | (Ok _, st2) => (Ok tt, mkRun (world st2) (log st2 ++ [Print m2]))
        end
    end.
Proof.
  unfold bind at 1, print at 1. unfold bind at 1, call at 1. cbn [world log].
  rewrite <- app_assoc. cbn [app].
  destruct (act (world st)) as [[u|e] w1]; [|reflexivity].
  unfold bind at 1.
  destruct (wait_for_parcel_stage cluster parcel target max_time
              (mkRun w1 (log st ++ [Print m1; ev]))) as [[u'|e] st2];
    reflexivity.
Qed.

(** What a phase leaves in the log: its opening line, its request, and
    then only prints, fetches and sleeps. *)
Lemma phase_spec {A : Type} (m1 m2 target : string) (ev : event)
    (act : W -> Res unit * W) (max_time : Z) (a : A) (st : Run W) :
  let phase := print m1 ;; call ev act ;;
               wait_for_parcel_stage cluster parcel target max_time ;;
               print m2 ;; ret a in
  exists post,
    log (snd (phase st)) = log st ++ [Print m1; ev] ++ post /\
    actions post = [] /\
    (fst (phase st) = Ok a \/ exists e, fst (phase st) = Raise e).
Proof.
  intros phase. unfold phase. rewrite phase_run.
  destruct (act (world st)) as [[u|e] w1].
  - destruct (poll_loop_frame cluster parcel target max_time
                (Z.to_nat max_time) (mkRun w1 (log st ++ [Print m1; ev])))
      as (lw & E & Ha & _).
    fold (wait_for_parcel_stage cluster parcel target max_time) in E.
    destruct (wait_for_parcel_stage cluster parcel target max_time
                (mkRun w1 (log st ++ [Print m1; ev]))) as [[u'|e] st2];
      cbn [snd fst log] in *; rewrite E, <- !app_assoc.
    + exists (lw ++ [Print m2]). rewrite actions_app, Ha.
      repeat split. now left.
    + exists lw. repeat split; [exact Ha|]. right. now exists e.
  - exists []. cbn [snd fst log]. repeat split. right. now exists e.
Qed.

Lemma phase_last_spec (m1 m2 target : string) (ev : event)
    (act : W -> Res unit * W) (max_time : Z) (st : Run W) :
  let phase := print m1 ;; call ev act ;;
               wait_for_parcel_stage cluster parcel target max_time ;;
               print m2 in
  exists post,
    log (snd (phase st)) = log st ++ [Print m1; ev] ++ post /\
    actions post = [].
Proof.
  intros phase. unfold phase. rewrite phase_run_last.
  destruct (phase_spec m1 m2 target ev act max_time tt st)
    as (post & E & Ha & _).
  rewrite phase_run in E. exists post. split; [|exact Ha].
  destruct (act (world st)) as [[u|e] w1]; [|exact E].
  destruct (wait_for_parcel_stage cluster parcel target max_time
              (mkRun w1 (log st ++ [Print m1; ev]))) as [[u'|e] st2];
    exact E.
Qed.

Lemma actions_phase (m1 : string) (ev : event) (post : list event) :
  is_action ev = true -> actions post = [] ->
  actions ([Print m1; ev] ++ post) = [ev].
Proof.
  intros Hev Ha. rewrite actions_app, Ha. cbn [actions filter is_action].
  now rewrite Hev.
Qed.

(** A phase whose request is accepted and whose polls all stay quiet ends
    with the timeout exception, right after the last poll. *)
Lemma phase_times_out {A : Type} (m1 m2 target : string) (ev : event)
    (act : W -> Res unit * W) (max_time : Z) (a : A) (st : Run W)
    (w1 w' : W) :
  act (world st) = (Ok tt, w1) ->
  after_quiet_polls cluster parcel target (Z.to_nat max_time) w1 = Some w' ->
  exists l,
    (print m1 ;; call ev act ;;
     wait_for_parcel_stage cluster parcel target max_time ;;
     print m2 ;; ret a) st
    = (Raise (Exception (timeout_msg parcel target max_time)),
       mkRun w' (log st ++ [Print m1; ev] ++ l))
    /\ fetches l = Z.to_nat max_time /\ actions l = [].
Proof.
  intros Hact Hq. rewrite phase_run, Hact.
  destruct (wait_times_out cluster parcel target max_time
              (mkRun w1 (log st ++ [Print m1; ev])) w' Hq)
    as (l & E & Hf & Ha).
  exists l. rewrite E. cbn [log]. rewrite <- app_assoc. now repeat split.
Qed.

Lemma phase_last_times_out (m1 m2 target : string) (ev : event)
    (act : W -> Res unit * W) (max_time : Z) (st : Run W) (w1 w' : W) :
  act (world st) = (Ok tt, w1) ->
  after_quiet_polls cluster parcel target (Z.to_nat max_time) w1 = Some w' ->
  exists l,
    (print m1 ;; call ev act ;;
     wait_for_parcel_stage cluster parcel target max_time ;;
     print m2) st
    = (Raise (Exception (timeout_msg parcel target max_time)),
       mkRun w' (log st ++ [Print m1; ev] ++ l))
    /\ fetches l = Z.to_nat max_time /\ actions l = [].
Proof.
  intros Hact Hq. rewrite phase_run_last, Hact.
  destruct (wait_times_out cluster parcel target max_time
              (mkRun w1 (log st ++ [Print m1; ev])) w' Hq)
    as (l & E & Hf & Ha).
  exists l. rewrite E. cbn [log]. rewrite <- app_assoc. now repeat split.
Qed.

Lemma download_step_spec (max_time : Z) (ps : string) (st : Run W) :
  let m := download_step cluster parcel max_time ps in
  exists l,
    log (snd (m st)) = log st ++ l /\
    ((ps = "AVAILABLE_REMOTELY"%string /\ actions l = [StartDownload parcel] /\
      (fst (m st) = Ok "DOWNLOADED"%string \/ exists e, fst (m st) = Raise e))
     \/ (ps <> "AVAILABLE_REMOTELY"%string /\ l = [] /\ fst (m st) = Ok ps)).
Proof.
  unfold download_step. destruct (String.eqb_spec ps "AVAILABLE_REMOTELY").
  - destruct (phase_spec ("Downloading parcel: " ++ parcel_id parcel)
                ("Downloaded parcel: " ++ parcel_id parcel ++ " ")
                "DOWNLOADED" (StartDownload parcel)
                (parcel_start_download parcel) max_time
                "DOWNLOADED"%string st) as (post & E & Ha & Hr).
    eexists. split; [exact E|]. left.
    repeat split; [assumption | now apply actions_phase | assumption].
  - exists []. cbn. rewrite app_nil_r. split; [reflexivity|]. now right.
Qed.

Lemma distribute_step_spec (max_time : Z) (ps : string) (st : Run W) :
  let m := distribute_step cluster parcel max_time ps in
  exists l,
    log (snd (m st)) = log st ++ l /\
    ((ps = "DOWNLOADED"%string /\ actions l = [StartDistribution parcel] /\
      (fst (m st) = Ok "DISTRIBUTED"%string \/ exists e, fst (m st) = Raise e))
     \/ (ps <> "DOWNLOADED"%string /\ l = [] /\ fst (m st) = Ok ps)).
Proof.
  unfold distribute_step. destruct (String.eqb_spec ps "DOWNLOADED").
  - destruct (phase_spec ("Distributing parcel: " ++ parcel_id parcel ++ " ")
                ("Distributed parcel: " ++ parcel_id parcel ++ " ")
                "DISTRIBUTED" (StartDistribution parcel)
                (parcel_start_distribution parcel) max_time
                "DISTRIBUTED"%string st) as (post & E & Ha & Hr).
    eexists. split; [exact E|]. left.
    repeat split; [assumption | now apply actions_phase | assumption].
  - exists []. cbn. rewrite app_nil_r. split; [reflexivity|]. now right.
Qed.

Lemma activate_step_spec (max_time : Z) (ps : string) (st : Run W) :
  let m := activate_step cluster parcel max_time ps in
  exists l,
    log (snd (m st)) = log st ++ l /\
    ((ps = "DISTRIBUTED"%string /\ actions l = [Activate parcel])
     \/ (ps <> "DISTRIBUTED"%string /\ l = [] /\ m st = (Ok tt, st))).
Proof.
  unfold activate_step. destruct (String.eqb_spec ps "DISTRIBUTED").
  - destruct (phase_last_spec ("Activating parcel: " ++ parcel_id parcel ++ " ")
                ("Activated parcel: " ++ parcel_id parcel ++ " ")
                "ACTIVATED" (Activate parcel)
                (parcel_activate parcel) max_time st) as (post & E & Ha).
    eexists. split; [exact E|]. left.
    split; [assumption | now apply actions_phase].
  - exists []. cbn. rewrite app_nil_r. split; [reflexivity|]. now right.
Qed.

Lemma plan_available :
  stage parcel = "AVAILABLE_REMOTELY"%string ->
  plan parcel
  = [StartDownload parcel; StartDistribution parcel; Activate parcel].
Proof. unfold plan. now intros ->. Qed.

Lemma plan_downloaded :
  stage parcel = "DOWNLOADED"%string ->
  plan parcel = [StartDistribution parcel; Activate parcel].
Proof. unfold plan. now intros ->. Qed.

Lemma plan_distributed :
  stage parcel = "DISTRIBUTED"%string -> plan parcel = [Activate parcel].
Proof. unfold plan. now intros ->. Qed.

Lemma plan_other :
  stage parcel <> "AVAILABLE_REMOTELY"%string ->
  stage parcel <> "DOWNLOADED"%string ->
  stage parcel <> "DISTRIBUTED"%string ->
  plan parcel = [].
Proof.
  intros H1 H2 H3. unfold plan.
  apply String.eqb_neq in H1, H2, H3. now rewrite H1, H2, H3.
Qed.

(** The requests issued are an initial part of the plan for the stage
    observed at entry, and the first of them is always issued. *)
Lemma ensure_actions_prefix (max_time : Z) (st : Run W) :
  exists l k,
    log (snd (ensure_parcel_activated cluster parcel max_time st))
    = log st ++ l
    /\ actions l = firstn k (plan parcel)
    /\ (plan parcel <> [] -> 1 <= k).
Proof.
  rewrite ensure_steps. unfold bind at 1.
  destruct (download_step_spec max_time (stage parcel) st) as (l1 & E1 & H1).
  cbv zeta in E1, H1.
  destruct (download_step cluster parcel max_time (stage parcel) st)
    as [[ps1|e1] st1]; cbn [fst snd] in E1, H1.
  2:{ destruct H1 as [(Hs & Ha & _)|(_ & _ & Hf)]; [|discriminate].
      exists l1, 1. rewrite (plan_available Hs). cbn [snd]. now repeat split. }
  unfold bind at 1.
  destruct (distribute_step_spec max_time ps1 st1) as (l2 & E2 & H2).
  cbv zeta in E2, H2.
  destruct (distribute_step cluster parcel max_time ps1 st1)
    as [[ps2|e2] st2]; cbn [fst snd] in E2, H2.
  2:{ destruct H2 as [(Hs2 & Ha2 & _)|(_ & _ & Hf)]; [|discriminate].
      cbn [snd]. rewrite E2, E1, <- app_assoc. exists (l1 ++ l2).
      rewrite actions_app, Ha2.
      destruct H1 as [(Hs & Ha & _)|(Hs & -> & Hf)].
      - exists 2. rewrite (plan_available Hs), Ha. repeat split. lia.
      - injection Hf as ->. exists 1. rewrite (plan_downloaded Hs2).
        now repeat split. }
  destruct (activate_step_spec max_time ps2 st2) as (l3 & E3 & H3).
  cbv zeta in E3, H3. rewrite E3, E2, E1, <- !app_assoc.
  exists (l1 ++ l2 ++ l3). rewrite !actions_app.
  destruct H1 as [(Hs & Ha & [Hf|(e & Hf)])|(Hs & -> & Hf)];
    try discriminate; injection Hf as ->.
  - destruct H2 as [(_ & Ha2 & [Hf2|(e & Hf2)])|(Hn & _)];
      try discriminate; [|now destruct Hn]. injection Hf2 as ->.
    destruct H3 as [(_ & Ha3)|(Hn & _)]; [|now destruct Hn].
    exists 3. rewrite (plan_available Hs), Ha, Ha2, Ha3. repeat split. lia.
  - destruct H2 as [(Hs2 & Ha2 & [Hf2|(e & Hf2)])|(Hs2 & -> & Hf2)];
      try discriminate; injection Hf2 as ->.
    + destruct H3 as [(_ & Ha3)|(Hn & _)]; [|now destruct Hn].
      exists 2. rewrite (plan_downloaded Hs2), Ha2, Ha3. repeat split. lia.
    + destruct H3 as [(Hs3 & Ha3)|(Hs3 & -> & _)].
      * exists 1. rewrite (plan_distributed Hs3), Ha3. now repeat split.
      * exists 0. rewrite (plan_other Hs Hs2 Hs3). repeat split.
        intros H. now destruct H.
Qed.

(** C10. When the stage observed at entry is ACTIVATED, or anything else
    than AVAILABLE_REMOTELY, DOWNLOADED and DISTRIBUTED, the driver returns
    normally and leaves the world and the log as they were: no request,
    no status fetch, no output. *)
Theorem nothing_to_do (max_time : Z) (st : Run W) :
  stage parcel = "ACTIVATED"%string \/
  (stage parcel <> "AVAILABLE_REMOTELY"%string /\
   stage parcel <> "DOWNLOADED"%string /\
   stage parcel <> "DISTRIBUTED"%string) ->
  ensure_parcel_activated cluster parcel max_time st = (Ok tt, st).
Proof.
  intros H.
  assert (H' : (stage parcel =? "AVAILABLE_REMOTELY")%string = false /\
               (stage parcel =? "DOWNLOADED")%string = false /\
               (stage parcel =? "DISTRIBUTED")%string = false).
  { destruct H as [->|(H1 & H2 & H3)]; [now repeat split|].
    now rewrite <- !String.eqb_neq in H1, H2, H3. }
  destruct H' as (H1 & H2 & H3).
  unfold ensure_parcel_activated. rewrite H1. unfold bind at 1, ret at 1.
  rewrite H2. unfold bind at 1, ret at 1. now rewrite H3.
Qed.

Lemma not_available_downloaded :
  ("DOWNLOADED" =? "AVAILABLE_REMOTELY")%string = false.
Proof. reflexivity. Qed.

Lemma not_available_distributed :
  ("DISTRIBUTED" =? "AVAILABLE_REMOTELY")%string = false.
Proof. reflexivity. Qed.

Lemma not_downloaded_distributed :
  ("DISTRIBUTED" =? "DOWNLOADED")%string = false.
Proof. reflexivity. Qed.

(** The timeouts of the wait and of the driver, with the message as the
    loop builds it. *)
Lemma stage_timeout_run (max_time : Z) :
  (0 < max_time)%Z ->
  (forall (target : string) (st : Run W) (w' : W),
     after_quiet_polls cluster parcel target (Z.to_nat max_time) (world st)
     = Some w' ->
     exists l,
       wait_for_parcel_stage cluster parcel target max_time st
       = (Raise (Exception (timeout_msg parcel target max_time)),
          mkRun w' (log st ++ l))
       /\ Z.of_nat (fetches l) = max_time /\ actions l = [])
  /\ (forall (st : Run W) (w1 w' : W),
        stage parcel = "DOWNLOADED"%string ->
        parcel_start_distribution parcel (world st) = (Ok tt, w1) ->
        after_quiet_polls cluster parcel "DISTRIBUTED" (Z.to_nat max_time) w1
        = Some w' ->
        exists l,
          ensure_parcel_activated cluster parcel max_time st
          = (Raise (Exception (timeout_msg parcel "DISTRIBUTED" max_time)),
             mkRun w' (log st ++ l))
          /\ Z.of_nat (fetches l) = max_time
          /\ actions l = [StartDistribution parcel])
  /\ (forall (st : Run W) (w1 w' : W),
        stage parcel = "AVAILABLE_REMOTELY"%string ->
        parcel_start_download parcel (world st) = (Ok tt, w1) ->
        after_quiet_polls cluster parcel "DOWNLOADED" (Z.to_nat max_time) w1
        = Some w' ->
        exists l,
          ensure_parcel_activated cluster parcel max_time st
          = (Raise (Exception (timeout_msg parcel "DOWNLOADED" max_time)),
             mkRun w' (log st ++ l))
          /\ Z.of_nat (fetches l) = max_time
          /\ actions l = [StartDownload parcel])
  /\ (forall (st : Run W) (w1 w' : W),
        stage parcel = "DISTRIBUTED"%string ->
        parcel_activate parcel (world st) = (Ok tt, w1) ->
        after_quiet_polls cluster parcel "ACTIVATED" (Z.to_nat max_time) w1
        = Some w' ->
        exists l,
          ensure_parcel_activated cluster parcel max_time st
          = (Raise (Exception (timeout_msg parcel "ACTIVATED" max_time)),
             mkRun w' (log st ++ l))
          /\ Z.of_nat (fetches l) = max_time
          /\ actions l = [Activate parcel]).
Proof.
  intros Hpos. repeat split.
  - intros target st w' Hq.
    destruct (wait_times_out cluster parcel target max_time st w' Hq)
      as (l & E & Hf & Ha).
    exists l. repeat split; [exact E | lia | exact Ha].
  - intros st w1 w' Hstage Hact Hq.
    rewrite ensure_steps. unfold bind at 1, download_step.
    rewrite Hstage, not_available_downloaded. unfold ret at 1.
    unfold bind at 1, distribute_step. rewrite String.eqb_refl.
    destruct (phase_times_out
                ("Distributing parcel: " ++ parcel_id parcel ++ " ")
                ("Distributed parcel: " ++ parcel_id parcel ++ " ")
                "DISTRIBUTED" (StartDistribution parcel)
                (parcel_start_distribution parcel) max_time
                "DISTRIBUTED"%string st w1 w' Hact Hq) as (l & E & Hf & Ha).
    rewrite E. eexists. split; [reflexivity|]. split.
    + rewrite fetches_app.
      change (fetches [Print ("Distributing parcel: " ++ parcel_id parcel ++ " ");
                       StartDistribution parcel]) with 0. lia.
    + now apply actions_phase.
  - intros st w1 w' Hstage Hact Hq.
    rewrite ensure_steps. unfold bind at 1, download_step.
    rewrite Hstage, String.eqb_refl.
    destruct (phase_times_out
                ("Downloading parcel: " ++ parcel_id parcel)
                ("Downloaded parcel: " ++ parcel_id parcel ++ " ")
                "DOWNLOADED" (StartDownload parcel)
                (parcel_start_download parcel) max_time
                "DOWNLOADED"%string st w1 w' Hact Hq) as (l & E & Hf & Ha).
    rewrite E. eexists. split; [reflexivity|]. split.
    + rewrite fetches_app.
      change (fetches [Print ("Downloading parcel: " ++ parcel_id parcel);
                       StartDownload parcel]) with 0. lia.
    + now apply actions_phase.
  - intros st w1 w' Hstage Hact Hq.
    rewrite ensure_steps. unfold bind at 1, download_step.
    rewrite Hstage, not_available_distributed. unfold ret at 1.
    unfold bind at 1, distribute_step.
    rewrite not_downloaded_distributed. unfold ret at 1.
    unfold activate_step. rewrite String.eqb_refl.
    destruct (phase_last_times_out
                ("Activating parcel: " ++ parcel_id parcel ++ " ")
                ("Activated parcel: " ++ parcel_id parcel ++ " ")
                "ACTIVATED" (Activate parcel)
                (parcel_activate parcel) max_time st w1 w' Hact Hq)
      as (l & E & Hf & Ha).
    rewrite E. eexists. split; [reflexivity|]. split.
    + rewrite fetches_app.
      change (fetches [Print ("Activating parcel: " ++ parcel_id parcel ++ " ");
                       Activate parcel]) with 0. lia.
    + now apply actions_phase.
Qed.

(** C4. With a positive budget [max_time], when each of the [max_time]
    polls is quiet (neither the target stage nor an error list), the wait
    fetches the status exactly [max_time] times and raises the timeout
    exception, whose message names the parcel's product and version, the
    target stage and the budget.  In the driver such a timeout ends the
    run: the request of the current stage is the only one issued (from
    DOWNLOADED: one distribution request and no activation request).  The
    budget is written in the message as a decimal numeral that reads back
    as [max_time]. *)
Theorem stage_timeout (max_time : Z) :
  (0 < max_time)%Z ->
  (forall (target : string) (st : Run W) (w' : W),
     after_quiet_polls cluster parcel target (Z.to_nat max_time) (world st)
     = Some w' ->
     exists l,
       wait_for_parcel_stage cluster parcel target max_time st
       = (Raise (Exception ("Parcel " ++ product parcel ++ "-" ++ version parcel
                      ++ " did not reach stage " ++ target ++ " in "
                      ++ str_of_Z max_time ++ " seconds.")),
          mkRun w' (log st ++ l))
       /\ Z.of_nat (fetches l) = max_time /\ actions l = [])
  /\ (forall (st : Run W) (w1 w' : W),
        stage parcel = "DOWNLOADED"%string ->
        parcel_start_distribution parcel (world st) = (Ok tt, w1) ->
        after_quiet_polls cluster parcel "DISTRIBUTED" (Z.to_nat max_time) w1
        = Some w' ->
        exists l,
          ensure_parcel_activated cluster parcel max_time st
          = (Raise (Exception ("Parcel " ++ product parcel ++ "-" ++ version parcel
                      ++ " did not reach stage " ++ "DISTRIBUTED" ++ " in "
                      ++ str_of_Z max_time ++ " seconds.")),
             mkRun w' (log st ++ l))
          /\ Z.of_nat (fetches l) = max_time
          /\ actions l = [StartDistribution parcel])
  /\ (forall (st : Run W) (w1 w' : W),
        stage parcel = "AVAILABLE_REMOTELY"%string ->
        parcel_start_download parcel (world st) = (Ok tt, w1) ->
        after_quiet_polls cluster parcel "DOWNLOADED" (Z.to_nat max_time) w1
        = Some w' ->
        exists l,
          ensure_parcel_activated cluster parcel max_time st
          = (Raise (Exception ("Parcel " ++ product parcel ++ "-" ++ version parcel
                      ++ " did not reach stage " ++ "DOWNLOADED" ++ " in "
                      ++ str_of_Z max_time ++ " seconds.")),
             mkRun w' (log st ++ l))
          /\ Z.of_nat (fetches l) = max_time
          /\ actions l = [StartDownload parcel])
  /\ (forall (st : Run W) (w1 w' : W),
        stage parcel = "DISTRIBUTED"%string ->
        parcel_activate parcel (world st) = (Ok tt, w1) ->
        after_quiet_polls cluster parcel "ACTIVATED" (Z.to_nat max_time) w1
        = Some w' ->
        exists l,
          ensure_parcel_activated cluster parcel max_time st
          = (Raise (Exception ("Parcel " ++ product parcel ++ "-" ++ version parcel
                      ++ " did not reach stage " ++ "ACTIVATED" ++ " in "
                      ++ str_of_Z max_time ++ " seconds.")),
             mkRun w' (log st ++ l))
          /\ Z.of_nat (fetches l) = max_time
          /\ actions l = [Activate parcel])
  /\ option_map Z.of_int (NilZero.int_of_string (str_of_Z max_time))
     = Some max_time.
Proof.
  intros Hpos.
  destruct (stage_timeout_run max_time Hpos) as (H1 & H2 & H3 & H4).
  split; [exact H1|]. split; [exact H2|]. split; [exact H3|].
  split; [exact H4|]. apply str_of_Z_reads_back.
Qed.

End Driver.

(** C3. A parcel observed at DOWNLOADED, a budget of at least two attempts
    (five in the scenario), a first poll that is quiet and a second poll
    that reports DISTRIBUTED: the log of the run continues with the
    distribution request, two status fetches, and the activation request;
    nothing that follows is a request, so there is no download request,
    exactly one distribution request and one activation request.  In
    general the requests issued are an initial part of the plan for the
    stage observed at entry, starting with its first request. *)
Theorem resumes_from_downloaded {W : Type} {api : CmApi W} {pystr : PyStr}
    (cluster : Cluster) (parcel : Parcel) (max_time : Z) (st : Run W)
    (w1 w2 w3 : W) (s1 s2 : Parcel) :
  let fetch_ev := GetParcel cluster (product parcel) (version parcel) in
  stage parcel = "DOWNLOADED"%string ->
  (2 <= max_time)%Z ->
  parcel_start_distribution parcel (world st) = (Ok tt, w1) ->
  cluster_get_parcel cluster (product parcel) (version parcel) w1
  = (Ok s1, w2) ->
  quiet "DISTRIBUTED" s1 = true ->
  cluster_get_parcel cluster (product parcel) (version parcel)
    (time_sleep 1 w2) = (Ok s2, w3) ->
  stage s2 = "DISTRIBUTED"%string ->
  (exists post,
     log (snd (ensure_parcel_activated cluster parcel max_time st))
     = log st
       ++ [Print ("Distributing parcel: " ++ parcel_id parcel ++ " ");
           StartDistribution parcel;
           fetch_ev; Print (progress_line s1); Sleep 1;
           fetch_ev;
           Print ("Distributed parcel: " ++ parcel_id parcel ++ " ");
           Print ("Activating parcel: " ++ parcel_id parcel ++ " ");
           Activate parcel]
       ++ post
     /\ actions post = []
     /\ actions (skipn (List.length (log st))
                  (log (snd (ensure_parcel_activated cluster parcel
                               max_time st))))
        = [StartDistribution parcel; Activate parcel])
  /\ (forall (p : Parcel) (m : Z) (st0 : Run W),
        exists l k,
          log (snd (ensure_parcel_activated cluster p m st0)) = log st0 ++ l
          /\ actions l = firstn k (plan p)
          /\ (plan p <> [] -> 1 <= k)).
Proof.
  intros fetch_ev Hstage Hmax Hd H1 Q1 H2 S2.
  split; [|intros p m st0; apply ensure_actions_prefix].
  assert (Hlog : exists post,
     log (snd (ensure_parcel_activated cluster parcel max_time st))
     = log st
       ++ [Print ("Distributing parcel: " ++ parcel_id parcel ++ " ");
           StartDistribution parcel;
           fetch_ev; Print (progress_line s1); Sleep 1;
           fetch_ev;
           Print ("Distributed parcel: " ++ parcel_id parcel ++ " ");
           Print ("Activating parcel: " ++ parcel_id parcel ++ " ");
           Activate parcel]
       ++ post
     /\ actions post = []).
  { rewrite ensure_steps. unfold bind at 1, download_step.
    rewrite Hstage, not_available_downloaded. unfold ret at 1.
    unfold bind at 1, distribute_step. rewrite String.eqb_refl.
    rewrite phase_run, Hd. unfold wait_for_parcel_stage at 1.
    destruct (Z.to_nat max_time) as [|[|n]] eqn:En; try lia.
    rewrite poll_loop_step. cbn [world log]. rewrite H1.
    unfold quiet in Q1. apply andb_prop in Q1 as [Qa Qb].
    apply negb_true_iff in Qa, Qb. rewrite Qa, Qb.
    rewrite poll_loop_step. cbn [world log]. rewrite H2, S2, String.eqb_refl.
    cbn [world log]. unfold activate_step. rewrite String.eqb_refl.
    match goal with
    | |- context [log (snd (_ ?s))] =>
        destruct (phase_last_spec cluster parcel
                    ("Activating parcel: " ++ parcel_id parcel ++ " ")
                    ("Activated parcel: " ++ parcel_id parcel ++ " ")
                    "ACTIVATED" (Activate parcel) (parcel_activate parcel)
                    max_time s) as (post & E & Ha)
    end.
    cbv zeta in E. rewrite E. cbn [log]. exists post.
    split; [|exact Ha]. rewrite <- !app_assoc. reflexivity. }
  destruct Hlog as (post & E & Ha). exists post.
  split; [exact E|]. split; [exact Ha|].
  rewrite E, skipn_app, skipn_all, Nat.sub_diag. cbn [skipn].
  rewrite app_nil_l, actions_app, Ha. reflexivity.
Qed.

(** ** Cluster resolution *)

Lemma find_sole_cluster_run {W : Type} {api : CmApi W} (st : Run W)
    (all_clusters : list Cluster) (w' : W) :
  api_get_all_clusters (world st) = (Ok all_clusters, w') ->
  find_sole_cluster st
  = match all_clusters with
    | [] => (Raise (Exception no_clusters_msg),
             mkRun w' (log st ++ [GetAllClusters]))
    | [c] => (Ok c,
              mkRun w' (log st ++ [GetAllClusters;
                                   Print ("Found cluster: " ++ displayName c)]))
    | _ :: _ :: _ => (Raise (Exception many_clusters_msg),
                      mkRun w' (log st ++ [GetAllClusters]))
    end.
Proof.
  intros H. unfold find_sole_cluster, bind at 1, call at 1. rewrite H.
  destruct all_clusters as [|c [|c' rest]]; try reflexivity.
  cbn [List.length Nat.eqb Nat.ltb Nat.leb]. unfold bind, print, ret.
  cbn [world log]. now rewrite <- app_assoc.
Qed.

(** C9 (amended). A non-empty name is looked up directly, whatever the
    clusters are: the only request is that lookup and its outcome is the
    outcome of the resolution.  With no name, or the empty name, the list
    of clusters is fetched: no cluster gives the missing-cluster
    exception, more than one the ambiguous-cluster exception, and exactly
    one is returned after its display name is printed. *)
Theorem cluster_resolution {W : Type} {api : CmApi W} (st : Run W) :
  (forall n : string,
     n <> ""%string ->
     find_cluster (Some n) st
     = (fst (api_get_cluster n (world st)),
        mkRun (snd (api_get_cluster n (world st))) (log st ++ [GetCluster n])))
  /\ (forall (cluster_name : option string) (all_clusters : list Cluster)
             (w' : W),
        cluster_name = None \/ cluster_name = Some ""%string ->
        api_get_all_clusters (world st) = (Ok all_clusters, w') ->
        (all_clusters = [] ->
         find_cluster cluster_name st
         = (Raise (Exception no_clusters_msg),
            mkRun w' (log st ++ [GetAllClusters])))
        /\ (1 < List.length all_clusters ->
            find_cluster cluster_name st
            = (Raise (Exception many_clusters_msg),
               mkRun w' (log st ++ [GetAllClusters])))
        /\ (forall c, all_clusters = [c] ->
            find_cluster cluster_name st
            = (Ok c,
               mkRun w' (log st ++ [GetAllClusters;
                                    Print ("Found cluster: "
                                           ++ displayName c)])))).
Proof.
  split.
  - intros n Hn. unfold find_cluster, truthy_name.
    apply String.eqb_neq in Hn. rewrite Hn. cbn [negb]. unfold call.
    now destruct (api_get_cluster n (world st)).
  - intros cluster_name all_clusters w' Hname Hall.
    assert (E : find_cluster cluster_name st = find_sole_cluster st)
      by (destruct Hname as [->| ->]; reflexivity).
    rewrite E, (find_sole_cluster_run st all_clusters w' Hall).
    repeat split.
    + now intros ->.
    + destruct all_clusters as [|c [|c' rest]]; cbn [List.length]; intros H;
        [lia | lia | reflexivity].
    + now intros c ->.
Qed.

(** The empty name is a name that is given and yet not looked up: the
    clusters are listed instead and, there being two, the
    ambiguous-cluster exception is raised. *)
Lemma cluster_resolution_counterexample :
  find_cluster (Some ""%string) (start two_clusters)
  = (Raise (Exception many_clusters_msg), mkRun two_clusters [GetAllClusters])
  /\ find_cluster (Some ""%string) (start two_clusters)
     <> (fst (api_get_cluster "" two_clusters),
         mkRun (snd (api_get_cluster "" two_clusters)) [GetCluster ""]).
Proof.
  split; [reflexivity | discriminate].
Qed.

Lemma cluster_resolution_witness :
  find_cluster (Some "c2"%string) (start two_clusters)
  = (Ok cluster2, mkRun two_clusters [GetCluster "c2"])
  /\ find_cluster None (start no_cluster)
     = (Raise (Exception no_clusters_msg), mkRun no_cluster [GetAllClusters])
  /\ find_cluster None (start two_clusters)
     = (Raise (Exception many_clusters_msg),
        mkRun two_clusters [GetAllClusters])
  /\ find_cluster None (start one_cluster)
     = (Ok cluster1,
        mkRun one_cluster [GetAllClusters; Print "Found cluster: Cluster 1"]).
Proof.
  split; [|split; [|split]].
  - exact (proj1 (cluster_resolution (start two_clusters)) "c2"%string
             ltac:(discriminate)).
  - exact (proj1 (proj2 (cluster_resolution (start no_cluster)) None
                    [] no_cluster (or_introl eq_refl) eq_refl)
             eq_refl).
  - exact (proj1 (proj2 (proj2 (cluster_resolution (start two_clusters)) None
                           [cluster1; cluster2] two_clusters
                           (or_introl eq_refl) eq_refl))
             ltac:(cbn; lia)).
  - exact (proj2 (proj2 (proj2 (cluster_resolution (start one_cluster)) None
                           [cluster1] one_cluster
                           (or_introl eq_refl) eq_refl))
             cluster1 eq_refl).
Defined.

(** ** The driver on sample runs *)

Lemma poll_attempt_outcome_witness :
  (exists l,
     fetches l = 1 /\ actions l = []
     /\ wait_for_parcel_stage cluster1 chosen "DISTRIBUTED" 5
          (start world_distributes)
        = (Ok tt,
           mkRun (polls_then [kudu "1.4.0-2" "ACTIVATED"])
             ([] ++ l ++ [GetParcel cluster1 "KUDU" "1.4.0-2"])))
  /\ (exists l,
       fetches l = 1 /\ actions l = []
       /\ wait_for_parcel_stage cluster1 chosen "DISTRIBUTED" 5
            (start world_fails)
          = (Raise (Exception "Fetching parcel resulted in error ['disk full']"),
             mkRun (polls_then [])
               ([] ++ l ++ [GetParcel cluster1 "KUDU" "1.4.0-2"]))).
Proof.
  split.
  - destruct (poll_attempt_outcome cluster1 chosen "DISTRIBUTED" 5 1
                (start world_distributes)
                (polls_then [kudu "1.4.0-2" "DISTRIBUTED";
                             kudu "1.4.0-2" "ACTIVATED"])
                (polls_then [kudu "1.4.0-2" "ACTIVATED"])
                (kudu "1.4.0-2" "DISTRIBUTED"))
      as (l & Hf & Ha & Hok & _).
    + vm_compute. lia.
    + reflexivity.
    + reflexivity.
    + exists l. repeat split; [exact Hf | exact Ha | now apply Hok].
  - destruct (poll_attempt_outcome cluster1 chosen "DISTRIBUTED" 5 1
                (start world_fails) (polls_then [failed]) (polls_then [])
                failed)
      as (l & Hf & Ha & _ & Herr).
    + vm_compute. lia.
    + reflexivity.
    + reflexivity.
    + exists l. repeat split; [exact Hf | exact Ha |].
      apply Herr; discriminate.
Defined.

Lemma stage_timeout_witness :
  (exists l,
     wait_for_parcel_stage cluster1 chosen "DISTRIBUTED" 5 (start world_stalls)
     = (Raise (Exception "Parcel KUDU-1.4.0-2 did not reach stage DISTRIBUTED in 5 seconds."),
        mkRun (polls_then []) ([] ++ l))
     /\ Z.of_nat (fetches l) = 5%Z /\ actions l = [])
  /\ (exists l,
       ensure_parcel_activated cluster1 chosen 5 (start world_stalls)
       = (Raise (Exception "Parcel KUDU-1.4.0-2 did not reach stage DISTRIBUTED in 5 seconds."),
          mkRun (polls_then []) ([] ++ l))
       /\ Z.of_nat (fetches l) = 5%Z
       /\ actions l = [StartDistribution chosen])
  /\ (exists l,
       ensure_parcel_activated cluster1 remote 5 (start world_stalls_remote)
       = (Raise (Exception "Parcel KUDU-1.4.0-2 did not reach stage DOWNLOADED in 5 seconds."),
          mkRun (polls_then []) ([] ++ l))
       /\ Z.of_nat (fetches l) = 5%Z
       /\ actions l = [StartDownload remote])
  /\ (exists l,
       ensure_parcel_activated cluster1 distributed 5
         (start world_stalls_distributed)
       = (Raise (Exception "Parcel KUDU-1.4.0-2 did not reach stage ACTIVATED in 5 seconds."),
          mkRun (polls_then []) ([] ++ l))
       /\ Z.of_nat (fetches l) = 5%Z
       /\ actions l = [Activate distributed]).
Proof.
  split; [|split; [|split]].
  - exact (proj1 (stage_timeout cluster1 chosen 5 eq_refl)
             "DISTRIBUTED"%string (start world_stalls) (polls_then [])
             eq_refl).
  - exact (proj1 (proj2 (stage_timeout cluster1 chosen 5 eq_refl))
             (start world_stalls) world_stalls (polls_then [])
             eq_refl eq_refl eq_refl).
  - exact (proj1 (proj2 (proj2 (stage_timeout cluster1 remote 5 eq_refl)))
             (start world_stalls_remote) world_stalls_remote (polls_then [])
             eq_refl eq_refl eq_refl).
  - exact (proj1 (proj2 (proj2 (proj2
             (stage_timeout cluster1 distributed 5 eq_refl))))
             (start world_stalls_distributed) world_stalls_distributed
             (polls_then []) eq_refl eq_refl eq_refl).
Defined.

Lemma nothing_to_do_witness :
  ensure_parcel_activated cluster1 (kudu "1.4.0-2" "ACTIVATED") 5
    (start world_stalls)
  = (Ok tt, start world_stalls)
  /\ ensure_parcel_activated cluster1 (kudu "1.4.0-2" "DOWNLOADING") 5
       (start world_stalls)
     = (Ok tt, start world_stalls).
Proof.
  split.
  - exact (nothing_to_do cluster1 (kudu "1.4.0-2" "ACTIVATED") 5
             (start world_stalls) (or_introl eq_refl)).
  - apply (nothing_to_do cluster1 (kudu "1.4.0-2" "DOWNLOADING") 5
             (start world_stalls)).
    right. repeat split; discriminate.
Defined.

Lemma resumes_from_downloaded_witness :
  exists post,
    log (snd (ensure_parcel_activated cluster1 chosen 5
                (start world_distributes)))
    = [] ++ [Print "Distributing parcel: KUDU-1.4.0-2 ";
             StartDistribution chosen;
             GetParcel cluster1 "KUDU" "1.4.0-2";
             Print "progress: 0 / 0"; Sleep 1;
             GetParcel cluster1 "KUDU" "1.4.0-2";
             Print "Distributed parcel: KUDU-1.4.0-2 ";
             Print "Activating parcel: KUDU-1.4.0-2 ";
             Activate chosen] ++ post
    /\ actions post = []
    /\ actions (skipn 0 (log (snd (ensure_parcel_activated cluster1 chosen 5
                                     (start world_distributes)))))
       = [StartDistribution chosen; Activate chosen].
Proof.
  exact (proj1 (resumes_from_downloaded cluster1 chosen 5
                  (start world_distributes) world_distributes
                  (polls_then [kudu "1.4.0-2" "DISTRIBUTED";
                               kudu "1.4.0-2" "ACTIVATED"])
                  (polls_then [kudu "1.4.0-2" "ACTIVATED"])
                  (kudu "1.4.0-2" "DOWNLOADED")
                  (kudu "1.4.0-2" "DISTRIBUTED")
                  eq_refl ltac:(lia) eq_refl eq_refl eq_refl eq_refl eq_refl)).
Defined.

(* ================================================================= *)
(** * Further properties of the script *)

(** ** Selection *)

Lemma forallb_false_witness {A : Type} (f : A -> bool) (l : list A) :
  forallb f l = false -> exists x, In x l /\ f x = false.
Proof.
  induction l as [|x l IH]; cbn [forallb]; [discriminate|].
  destruct (f x) eqn:E; cbn [andb].
  - intros H. destruct (IH H) as (y & Hy & Fy). exists y. split; [now right|exact Fy].
  - intros _. exists x. split; [now left | exact E].
Qed.

(** A comprehension that did not raise is the plain filter, and every
    version it examined was well formed. *)
Lemma filter_candidates_inv (base : Parcel) (cs l : list Parcel) :
  filter_candidates base cs = Ok l ->
  l = filter (is_upgrade_of base) cs
  /\ forall v, In v (examined base cs) -> well_formed v = true.
Proof.
  intros H. destruct (forallb well_formed (examined base cs)) eqn:F.
  - rewrite forallb_forall in F. rewrite (filter_candidates_ok base cs F) in H.
    injection H as <-. now split.
  - apply forallb_false_witness in F.
    destruct (filter_candidates_raise base cs F) as (bad & _ & _ & E).
    rewrite E in H. discriminate H.
Qed.

Lemma kudu_candidates_in (ps : list Parcel) (p : Parcel) :
  In p (kudu_candidates ps) <->
  In p ps /\ product p = "KUDU"%string /\ stage p <> "ACTIVATED"%string.
Proof.
  unfold kudu_candidates, is_kudu, is_activated. rewrite filter_In.
  rewrite andb_true_iff, negb_true_iff, String.eqb_eq, String.eqb_neq.
  tauto.
Qed.

Lemma kudu_activated_in (ps : list Parcel) (p : Parcel) :
  In p (kudu_activated ps) <->
  In p ps /\ product p = "KUDU"%string /\ stage p = "ACTIVATED"%string.
Proof.
  unfold kudu_activated, is_kudu, is_activated. rewrite filter_In.
  rewrite andb_true_iff, !String.eqb_eq. tauto.
Qed.

Lemma is_upgrade_of_newer (base p : Parcel) :
  is_upgrade_of base p = true -> (version base <? version p)%string = true.
Proof.
  unfold is_upgrade_of.
  destruct (get_release_version (version p)); [|discriminate].
  destruct (get_release_version (version base)); [|discriminate].
  intros H. now apply andb_prop in H.
Qed.

(** What a successful selection tells. *)
Lemma selection_ok_inv {W : Type} {api : CmApi W} (cluster : Cluster)
    (st st' : Run W) (ps : list Parcel) (w' : W) (best : Parcel) :
  cluster_get_all_parcels cluster (world st) = (Ok ps, w') ->
  get_best_upgrade_candidate_parcel cluster st = (Ok best, st') ->
  exists a rest c cs,
    kudu_activated ps = a :: rest
    /\ filter (is_upgrade_of (max_from a rest)) (kudu_candidates ps) = c :: cs
    /\ best = max_from c cs
    /\ st' = mkRun w' (log st ++ [GetAllParcels cluster;
                                   Print (chose_line best)]).
Proof.
  intros Hall Hsel. rewrite (selection_run cluster st ps w' Hall) in Hsel.
  destruct (kudu_activated ps) as [|a rest]; [discriminate|].
  cbv zeta in Hsel.
  destruct (filter_candidates (max_from a rest) (kudu_candidates ps))
    as [l|e] eqn:F; [|discriminate].
  apply filter_candidates_inv in F as [-> _].
  destruct (filter (is_upgrade_of (max_from a rest)) (kudu_candidates ps))
    as [|c cs] eqn:F'; [discriminate|].
  injection Hsel as <- <-. exists a, rest, c, cs.
  repeat split; [exact F'|]. cbn [log]. now rewrite <- app_assoc.
Qed.

(** X1. Whenever the selection returns a parcel, that parcel is a KUDU
    record of the list that is not ACTIVATED, its version is strictly
    greater than the version of every ACTIVATED KUDU record (never a
    downgrade, never the current parcel), and it has the same release as
    the ACTIVATED record of greatest version. *)
Theorem selected_is_upgrade {W : Type} {api : CmApi W} (cluster : Cluster)
    (st st' : Run W) (ps : list Parcel) (w' : W) (best : Parcel) :
  cluster_get_all_parcels cluster (world st) = (Ok ps, w') ->
  get_best_upgrade_candidate_parcel cluster st = (Ok best, st') ->
  In best ps
  /\ product best = "KUDU"%string
  /\ stage best <> "ACTIVATED"%string
  /\ (forall a, In a (kudu_activated ps) ->
        (version a <? version best)%string = true)
  /\ (forall base, greatest_of (kudu_activated ps) base ->
        is_upgrade_of base best = true).
Proof.
  intros Hall Hsel.
  destruct (selection_ok_inv cluster st st' ps w' best Hall Hsel)
    as (a & rest & c & cs & Ea & F & -> & _).
  assert (Hin : In (max_from c cs)
                  (filter (is_upgrade_of (max_from a rest))
                     (kudu_candidates ps)))
    by (rewrite F; apply max_from_in).
  apply filter_In in Hin as [Hin Hup].
  apply kudu_candidates_in in Hin as (Hin & Hp & Hs).
  repeat split; try assumption.
  - intros x Hx. rewrite Ea in Hx.
    eapply leb_ltb_trans; [apply (max_from_ge a rest x Hx)|].
    now apply is_upgrade_of_newer.
  - intros base Hb. rewrite (is_upgrade_of_version base (max_from a rest));
      [exact Hup|].
    destruct (max_by_version_greatest (a :: rest)) as (m & Hm & Hg);
      [discriminate|].
    injection Hm as <-. rewrite Ea in Hb.
    now apply (greatest_version_unique (a :: rest)).
Qed.

Lemma selected_is_upgrade_witness :
  In (kudu "1.4.0-3" "AVAILABLE_REMOTELY") ps_upgrade
  /\ product (kudu "1.4.0-3" "AVAILABLE_REMOTELY") = "KUDU"%string
  /\ stage (kudu "1.4.0-3" "AVAILABLE_REMOTELY") <> "ACTIVATED"%string
  /\ (forall a, In a (kudu_activated ps_upgrade) ->
        (version a <? version (kudu "1.4.0-3" "AVAILABLE_REMOTELY"))%string
        = true)
  /\ (forall base, greatest_of (kudu_activated ps_upgrade) base ->
        is_upgrade_of base (kudu "1.4.0-3" "AVAILABLE_REMOTELY") = true).
Proof.
  exact (selected_is_upgrade cluster1 (with_parcels ps_upgrade)
           (mkRun (mkScripted [cluster1] ps_upgrade [])
              [GetAllParcels cluster1;
               Print (chose_line (kudu "1.4.0-3" "AVAILABLE_REMOTELY"))])
           ps_upgrade (mkScripted [cluster1] ps_upgrade [])
           (kudu "1.4.0-3" "AVAILABLE_REMOTELY") eq_refl eq_refl).
Defined.

(** X2. The selection only reads: whatever the client answers, it makes
    the one call for the parcels and nothing else, except that it prints
    the chosen parcel exactly when it returns one; an exception raised by
    that call is the outcome of the selection. *)
Theorem selection_read_only {W : Type} {api : CmApi W} (cluster : Cluster)
    (st : Run W) :
  exists res out,
    get_best_upgrade_candidate_parcel cluster st
    = (res,
       mkRun (snd (cluster_get_all_parcels cluster (world st)))
         (log st ++ GetAllParcels cluster :: out))
    /\ ((exists best, res = Ok best /\ out = [Print (chose_line best)])
        \/ (exists e, res = Raise e /\ out = []))
    /\ (forall e, fst (cluster_get_all_parcels cluster (world st)) = Raise e ->
                  res = Raise e).
Proof.
  destruct (cluster_get_all_parcels cluster (world st)) as [[ps|e] w'] eqn:Hall.
  - rewrite (selection_run cluster st ps w' Hall). cbn [fst snd].
    destruct (kudu_activated ps) as [|a rest].
    { eexists _, []. split; [reflexivity|]. split; [|discriminate].
      right. now eexists. }
    cbv zeta.
    destruct (filter_candidates (max_from a rest) (kudu_candidates ps))
      as [[|c cs]|e].
    + eexists _, []. split; [reflexivity|]. split; [|discriminate].
      right. now eexists.
    + eexists _, [Print (chose_line (max_from c cs))]. cbn [log].
      rewrite <- app_assoc. split; [reflexivity|]. split; [|discriminate].
      left. now eexists.
    + eexists _, []. split; [reflexivity|]. split; [|discriminate].
      right. now eexists.
  - exists (Raise e), []. cbn [fst snd].
    unfold get_best_upgrade_candidate_parcel, bind at 1, call. rewrite Hall.
    split; [reflexivity|]. split; [right; now eexists|]. now intros e' [= <-].
Qed.

Lemma kudu_activated_filter (ps : list Parcel) :
  kudu_activated (filter is_kudu ps) = kudu_activated ps.
Proof.
  unfold kudu_activated. induction ps as [|p ps IH]; [reflexivity|].
  cbn [filter]. destruct (is_kudu p) eqn:E; cbn [filter andb].
  - rewrite E. cbn [andb]. now rewrite IH.
  - exact IH.
Qed.

Lemma kudu_candidates_filter (ps : list Parcel) :
  kudu_candidates (filter is_kudu ps) = kudu_candidates ps.
Proof.
  unfold kudu_candidates. induction ps as [|p ps IH]; [reflexivity|].
  cbn [filter]. destruct (is_kudu p) eqn:E; cbn [filter andb].
  - rewrite E. cbn [andb]. now rewrite IH.
  - exact IH.
Qed.

(** X3. Records of other products play no part: two answers of the client
    with the same KUDU records, in the same order, give the same outcome,
    the same parcel or the same exception. *)
Theorem other_products_ignored {W : Type} {api : CmApi W}
    (cluster : Cluster) (st1 st2 : Run W) (ps1 ps2 : list Parcel)
    (w1 w2 : W) :
  cluster_get_all_parcels cluster (world st1) = (Ok ps1, w1) ->
  cluster_get_all_parcels cluster (world st2) = (Ok ps2, w2) ->
  filter is_kudu ps1 = filter is_kudu ps2 ->
  fst (get_best_upgrade_candidate_parcel cluster st1)
  = fst (get_best_upgrade_candidate_parcel cluster st2).
Proof.
  intros H1 H2 Hk.
  rewrite (selection_run cluster st1 ps1 w1 H1),
    (selection_run cluster st2 ps2 w2 H2).
  rewrite <- (kudu_activated_filter ps1), <- (kudu_candidates_filter ps1), Hk,
    kudu_activated_filter, kudu_candidates_filter.
  destruct (kudu_activated ps2) as [|a rest]; [reflexivity|]. cbv zeta.
  destruct (filter_candidates (max_from a rest) (kudu_candidates ps2))
    as [[|c cs]|e]; reflexivity.
Qed.

Lemma other_products_ignored_witness :
  fst (get_best_upgrade_candidate_parcel cluster1 (with_parcels ps_mixed))
  = fst (get_best_upgrade_candidate_parcel cluster1 (with_parcels ps_upgrade)).
Proof.
  exact (other_products_ignored cluster1 (with_parcels ps_mixed)
           (with_parcels ps_upgrade) ps_mixed ps_upgrade
           (mkScripted [cluster1] ps_mixed [])
           (mkScripted [cluster1] ps_upgrade []) eq_refl eq_refl eq_refl).
Defined.

(** X4. [max(parcels, key=version)] picks the earliest record of greatest
    version: every record before it has a strictly smaller version, every
    record after it a smaller or equal one.  So of two candidates with the
    same greatest version the one listed first is chosen. *)
Theorem max_is_first_greatest (ps : list Parcel) (m : Parcel) :
  max_by_version ps = Ok m ->
  exists l1 l2,
    ps = l1 ++ m :: l2
    /\ (forall x, In x l1 -> (version x <? version m)%string = true)
    /\ (forall x, In x l2 -> (version x <=? version m)%string = true).
Proof.
  destruct ps as [|p rest]; [discriminate|]. cbn [max_by_version].
  intros [= <-]. apply max_from_split.
Qed.

Lemma max_is_first_greatest_witness :
  exists l1 l2,
    ps_tied = l1 ++ kudu "1.4.0-3" "DOWNLOADED" :: l2
    /\ (forall x, In x l1 ->
          (version x <? version (kudu "1.4.0-3" "DOWNLOADED"))%string = true)
    /\ (forall x, In x l2 ->
          (version x <=? version (kudu "1.4.0-3" "DOWNLOADED"))%string = true).
Proof.
  exact (max_is_first_greatest ps_tied (kudu "1.4.0-3" "DOWNLOADED") eq_refl).
Defined.

(** ** Release matching *)

(** X5. The build suffix plays no part in the release test: for two
    versions made of a triplet digits.digits.digits followed by a suffix
    that does not start with a digit, the test succeeds and tells whether
    the two triplets are the same string. *)
Theorem release_match_by_triplet (p1 p2 : Parcel)
    (d1 d2 d3 e1 e2 e3 s1 s2 : string) :
  number d1 -> number d2 -> number d3 ->
  number e1 -> number e2 -> number e3 ->
  no_leading_digit s1 -> no_leading_digit s2 ->
  version p1 = (d1 ++ "." ++ d2 ++ "." ++ d3 ++ s1)%string ->
  version p2 = (e1 ++ "." ++ e2 ++ "." ++ e3 ++ s2)%string ->
  release_versions_match p1 p2
  = Ok ((d1 ++ "." ++ d2 ++ "." ++ d3 =? e1 ++ "." ++ e2 ++ "." ++ e3)%string).
Proof.
  intros D1 D2 D3 E1 E2 E3 S1 S2 V1 V2. unfold release_versions_match.
  rewrite V1, V2, (release_of_triplet d1 d2 d3 s1),
    (release_of_triplet e1 e2 e3 s2); trivial.
Qed.

Lemma number_1 : number "1".
Proof. split; [discriminate | reflexivity]. Qed.

Lemma number_4 : number "4".
Proof. split; [discriminate | reflexivity]. Qed.

Lemma number_0 : number "0".
Proof. split; [discriminate | reflexivity]. Qed.

Lemma release_match_by_triplet_witness :
  release_versions_match (kudu "1.4.0-2.cdh5.12.0" "DOWNLOADED")
    (kudu "1.4.0-1.cdh5.12.0.p0.814" "ACTIVATED")
  = Ok true.
Proof.
  exact (release_match_by_triplet (kudu "1.4.0-2.cdh5.12.0" "DOWNLOADED")
           (kudu "1.4.0-1.cdh5.12.0.p0.814" "ACTIVATED")
           "1" "4" "0" "1" "4" "0"
           "-2.cdh5.12.0" "-1.cdh5.12.0.p0.814"
           number_1 number_4 number_0 number_1 number_4 number_0
           eq_refl eq_refl eq_refl eq_refl).
Defined.

(** X6. The release test is defined exactly on pairs of well-formed
    versions, and there it is an equivalence: reflexive, symmetric and
    transitive. *)
Theorem release_match_equivalence :
  (forall p q,
     (exists b, release_versions_match p q = Ok b) <->
     well_formed (version p) = true /\ well_formed (version q) = true)
  /\ (forall p, well_formed (version p) = true ->
                release_versions_match p p = Ok true)
  /\ (forall p q b, release_versions_match p q = Ok b ->
                    release_versions_match q p = Ok b)
  /\ (forall p q r,
        release_versions_match p q = Ok true ->
        release_versions_match q r = Ok true ->
        release_versions_match p r = Ok true).
Proof.
  unfold release_versions_match, well_formed, get_release_version.
  split; [|split; [|split]].
  - intros p q. split.
    + intros [b H]. destruct (re_match_group1 (version p)); [|discriminate].
      now destruct (re_match_group1 (version q)).
    + intros [Hp Hq]. destruct (re_match_group1 (version p)); [|discriminate].
      destruct (re_match_group1 (version q)); [|discriminate]. now eexists.
  - intros p Hp. destruct (re_match_group1 (version p)); [|discriminate].
    cbn [bindR]. now rewrite String.eqb_refl.
  - intros p q b. destruct (re_match_group1 (version p)); [|discriminate].
    destruct (re_match_group1 (version q)); [|discriminate]. cbn [bindR].
    now rewrite String.eqb_sym.
  - intros p q r. destruct (re_match_group1 (version p)); [|discriminate].
    destruct (re_match_group1 (version q)); [|discriminate].
    destruct (re_match_group1 (version r)); [|discriminate]. cbn [bindR].
    intros [= H1] [= H2]. apply String.eqb_eq in H1, H2. subst.
    now rewrite String.eqb_refl.
Qed.

(** ** The selection does not depend on the order of the records *)

(** The three outcomes of a selection over well-formed KUDU versions. *)
Lemma selection_outcome {W : Type} {api : CmApi W} (cluster : Cluster)
    (st : Run W) (ps : list Parcel) (w' : W) :
  cluster_get_all_parcels cluster (world st) = (Ok ps, w') ->
  (forall p, In p ps -> product p = "KUDU"%string ->
             well_formed (version p) = true) ->
  let res := fst (get_best_upgrade_candidate_parcel cluster st) in
  (kudu_activated ps = [] /\ res = Raise (Exception no_activated_msg))
  \/ (exists base,
        greatest_of (kudu_activated ps) base
        /\ ((res = Raise (Exception (no_candidates_msg base))
             /\ forall c, In c (kudu_candidates ps) ->
                          is_upgrade_of base c = false)
            \/ (exists best,
                  res = Ok best /\ In best (kudu_candidates ps)
                  /\ is_upgrade_of base best = true
                  /\ forall c, In c (kudu_candidates ps) ->
                       is_upgrade_of base c = true ->
                       (version c <=? version best)%string = true))).
Proof.
  intros Hall Hwf res. unfold res.
  rewrite (selection_run cluster st ps w' Hall).
  destruct (kudu_activated ps) as [|a rest] eqn:Ea; [now left|]. right.
  destruct (max_by_version_greatest (a :: rest)) as (m & Hm & Hg);
    [discriminate|].
  injection Hm as <-. exists (max_from a rest). split; [exact Hg|].
  cbv zeta. rewrite filter_candidates_ok.
  2:{ apply examined_well_formed.
      - intros c Hc. apply kudu_candidates_in in Hc as (Hc & Hp & _). auto.
      - intros _. destruct Hg as [Hin _]. rewrite <- Ea in Hin.
        apply kudu_activated_in in Hin as (Hin & Hp & _). auto. }
  destruct (filter (is_upgrade_of (max_from a rest)) (kudu_candidates ps))
    as [|c cs] eqn:F.
  - left. split; [reflexivity|]. intros c Hc.
    destruct (is_upgrade_of (max_from a rest) c) eqn:U; [|reflexivity].
    assert (H : In c (filter (is_upgrade_of (max_from a rest))
                        (kudu_candidates ps))) by (apply filter_In; now split).
    rewrite F in H. destruct H.
  - right. exists (max_from c cs).
    assert (H : In (max_from c cs)
                  (filter (is_upgrade_of (max_from a rest))
                     (kudu_candidates ps))) by (rewrite F; apply max_from_in).
    apply filter_In in H as [Hin Hup].
    repeat split; try assumption.
    intros x Hx Ux. apply max_from_ge. rewrite <- F. apply filter_In.
    now split.
Qed.

Lemma greatest_version_same (ps1 ps2 : list Parcel) (b1 b2 : Parcel) :
  (forall p, In p ps1 <-> In p ps2) ->
  greatest_of ps1 b1 -> greatest_of ps2 b2 -> version b1 = version b2.
Proof.
  intros Hsame [I1 G1] [I2 G2]. apply String.leb_antisym.
  - apply G2. now apply Hsame.
  - apply G1. now apply Hsame.
Qed.

(** X7. The outcome does not depend on the order in which the client
    lists the records: for two lists with the same records whose KUDU
    versions are all well formed, either both selections raise the same
    exception, or both return a parcel and the two parcels have the same
    version. *)
Theorem selection_order_independent {W : Type} {api : CmApi W}
    (cluster : Cluster) (st1 st2 : Run W) (ps1 ps2 : list Parcel)
    (w1 w2 : W) :
  cluster_get_all_parcels cluster (world st1) = (Ok ps1, w1) ->
  cluster_get_all_parcels cluster (world st2) = (Ok ps2, w2) ->
  (forall p, In p ps1 <-> In p ps2) ->
  (forall p, In p ps1 -> product p = "KUDU"%string ->
             well_formed (version p) = true) ->
  match fst (get_best_upgrade_candidate_parcel cluster st1),
        fst (get_best_upgrade_candidate_parcel cluster st2) with
  | Ok b1, Ok b2 => version b1 = version b2
  | Raise e1, Raise e2 => e1 = e2
  | _, _ => False
  end.
Proof.
  intros H1 H2 Hsame Hwf1.
  assert (Hwf2 : forall p, In p ps2 -> product p = "KUDU"%string ->
                           well_formed (version p) = true)
    by (intros p Hp; apply Hwf1; now apply Hsame).
  assert (Hact : forall p, In p (kudu_activated ps1)
                           <-> In p (kudu_activated ps2))
    by (intros p; rewrite !kudu_activated_in, (Hsame p); tauto).
  assert (Hcand : forall p, In p (kudu_candidates ps1)
                            <-> In p (kudu_candidates ps2))
    by (intros p; rewrite !kudu_candidates_in, (Hsame p); tauto).
  destruct (selection_outcome cluster st1 ps1 w1 H1 Hwf1)
    as [[N1 ->]|(b1 & G1 & O1)];
    destruct (selection_outcome cluster st2 ps2 w2 H2 Hwf2)
      as [[N2 ->]|(b2 & G2 & O2)].
  - reflexivity.
  - destruct G2 as [I2 _]. apply Hact in I2. rewrite N1 in I2. destruct I2.
  - destruct G1 as [I1 _]. apply Hact in I1. rewrite N2 in I1. destruct I1.
  - pose proof (greatest_version_same _ _ b1 b2 Hact G1 G2) as Ev.
    assert (Ep : product b1 = product b2).
    { destruct G1 as [I1 _], G2 as [I2 _].
      now rewrite (kudu_activated_product ps1 b1 I1),
        (kudu_activated_product ps2 b2 I2). }
    destruct O1 as [[-> U1]|(c1 & -> & I1 & Up1 & M1)];
      destruct O2 as [[-> U2]|(c2 & -> & I2 & Up2 & M2)].
    + unfold no_candidates_msg. now rewrite Ev, Ep.
    + apply Hcand in I2. rewrite (is_upgrade_of_version b2 b1) in Up2 by easy.
      rewrite (U1 c2 I2) in Up2. discriminate.
    + apply Hcand in I1. rewrite (is_upgrade_of_version b1 b2) in Up1 by easy.
      rewrite (U2 c1 I1) in Up1. discriminate.
    + apply String.leb_antisym.
      * apply M2; [now apply Hcand|].
        now rewrite (is_upgrade_of_version b2 b1).
      * apply M1; [now apply Hcand|].
        now rewrite (is_upgrade_of_version b1 b2).
Qed.

Lemma selection_order_independent_witness :
  match fst (get_best_upgrade_candidate_parcel cluster1
               (with_parcels ps_upgrade)),
        fst (get_best_upgrade_candidate_parcel cluster1
               (with_parcels ps_upgrade_reordered)) with
  | Ok b1, Ok b2 => version b1 = version b2
  | Raise e1, Raise e2 => e1 = e2
  | _, _ => False
  end.
Proof.
  apply (selection_order_independent cluster1 (with_parcels ps_upgrade)
           (with_parcels ps_upgrade_reordered) ps_upgrade ps_upgrade_reordered
           (mkScripted [cluster1] ps_upgrade [])
           (mkScripted [cluster1] ps_upgrade_reordered [])).
  - reflexivity.
  - reflexivity.
  - intros p. cbn. tauto.
  - intros p [<-|[<-|[<-|[<-|[]]]]] _; reflexivity.
Defined.

(** ** The wait for a stage *)

Lemma slept_app (a b : list event) : slept (a ++ b) = (slept a + slept b)%Z.
Proof.
  induction a as [|e a IH]; [reflexivity|].
  destruct e; cbn [app slept]; rewrite ?IH; lia.
Qed.

Section Waiting.

Context {W : Type} {api : CmApi W} {pystr : PyStr}.

Variables (cluster : Cluster) (parcel : Parcel).

Let fetch_ev : event := GetParcel cluster (product parcel) (version parcel).

Lemma polling_round (s : Parcel) :
  Forall (polling_event cluster parcel)
    [fetch_ev; Print (progress_line s); Sleep 1].
Proof.
  apply Forall_cons; [now left|].
  apply Forall_cons; [right; left; now exists s|].
  apply Forall_cons; [right; now right | apply Forall_nil].
Qed.

Lemma polling_no_action (l : list event) :
  Forall (polling_event cluster parcel) l -> actions l = [].
Proof.
  induction 1 as [|e l He _ IH]; [reflexivity|].
  cbn [actions filter]. fold (actions l). rewrite IH.
  destruct He as [->|[[s ->]| ->]]; reflexivity.
Qed.

(** Everything the loop does, with its counts. *)
Lemma poll_loop_trace (target : string) (max_time : Z) (n : nat) (st : Run W) :
  exists l,
    log (snd (poll_loop cluster parcel target max_time n st)) = log st ++ l
    /\ Forall (polling_event cluster parcel) l
    /\ fetches l <= n
    /\ (0 <= slept l <= Z.of_nat (fetches l))%Z.
Proof.
  revert st. induction n as [|n IH]; intros st.
  - exists []. cbn. rewrite app_nil_r. repeat split; try constructor; lia.
  - rewrite poll_loop_step.
    assert (One : exists l,
               log st ++ [fetch_ev] = log st ++ l
               /\ Forall (polling_event cluster parcel) l
               /\ fetches l <= S n
               /\ (0 <= slept l <= Z.of_nat (fetches l))%Z).
    { exists [fetch_ev]. repeat split; cbn; try lia.
      constructor; [now left | constructor]. }
    destruct (cluster_get_parcel cluster (product parcel) (version parcel)
                (world st)) as [[s|e] w1]; [|exact One].
    destruct (stage s =? target)%string; [exact One|].
    destruct (truthy_list (errors (state s))); [exact One|].
    destruct (IH (mkRun (time_sleep 1 w1)
                    (log st ++ [fetch_ev; Print (progress_line s); Sleep 1])))
      as (l & E & Hl & Hf & Hs).
    exists ([fetch_ev; Print (progress_line s); Sleep 1] ++ l).
    unfold fetch_ev in E. rewrite E. cbn [log]. rewrite <- app_assoc.
    split; [reflexivity|]. split; [|split].
    + apply Forall_app. split; [apply polling_round | exact Hl].
    + rewrite fetches_app.
      change (fetches [fetch_ev; Print (progress_line s); Sleep 1]) with 1.
      lia.
    + rewrite slept_app, fetches_app.
      change (fetches [fetch_ev; Print (progress_line s); Sleep 1]) with 1.
      change (slept [fetch_ev; Print (progress_line s); Sleep 1]) with 1%Z.
      lia.
Qed.

(** X8. A wait only fetches the status of its parcel, prints progress
    lines and sleeps one second at a time: it issues no request, fetches
    the status at most [max_time] times, and sleeps at most one second per
    fetch. *)
Theorem wait_is_bounded (target : string) (max_time : Z) (st : Run W) :
  exists l,
    log (snd (wait_for_parcel_stage cluster parcel target max_time st))
    = log st ++ l
    /\ Forall (polling_event cluster parcel) l
    /\ actions l = []
    /\ fetches l <= Z.to_nat max_time
    /\ (0 <= slept l <= Z.of_nat (fetches l))%Z.
Proof.
  destruct (poll_loop_trace target max_time (Z.to_nat max_time) st)
    as (l & E & Hl & Hf & Hs).
  exists l. repeat split; try assumption; try lia.
  now apply polling_no_action.
Qed.

Lemma poll_loop_quiet_slept (target : string) (max_time : Z) (k n : nat)
    (st : Run W) (w' : W) :
  after_quiet_polls cluster parcel target k (world st) = Some w' ->
  exists l,
    poll_loop cluster parcel target max_time (k + n) st
    = poll_loop cluster parcel target max_time n (mkRun w' (log st ++ l))
    /\ fetches l = k /\ slept l = Z.of_nat k.
Proof.
  revert st. induction k as [|k IH]; intros st H.
  - injection H as <-. exists []. rewrite app_nil_r, run_eta. now repeat split.
  - cbn [after_quiet_polls] in H. cbn [Nat.add]. rewrite poll_loop_step.
    destruct (cluster_get_parcel cluster (product parcel) (version parcel)
                (world st)) as [[s|e] w1]; [|discriminate].
    destruct (quiet target s) eqn:Q; [|discriminate].
    unfold quiet in Q. apply andb_prop in Q as [Q1 Q2].
    apply negb_true_iff in Q1, Q2. rewrite Q1, Q2.
    destruct (IH (mkRun (time_sleep 1 w1)
                    (log st ++ [fetch_ev; Print (progress_line s); Sleep 1])) H)
      as (l & E & Hf & Hs).
    exists ([fetch_ev; Print (progress_line s); Sleep 1] ++ l).
    unfold fetch_ev in E. rewrite E. cbn [log]. rewrite <- app_assoc. repeat split.
    + rewrite fetches_app, Hf. reflexivity.
    + rewrite slept_app, Hs.
      change (slept [fetch_ev; Print (progress_line s); Sleep 1]) with 1%Z.
      lia.
Qed.

(** X9. The seconds named by the timeout exception are the seconds slept
    (the numeral in the message reads back as the seconds slept):
    when the [max_time] polls of a non-negative budget are all quiet, the
    wait has slept exactly [max_time] seconds when it raises. *)
Theorem timeout_after_budget_seconds (target : string) (max_time : Z)
    (st : Run W) (w' : W) :
  (0 <= max_time)%Z ->
  after_quiet_polls cluster parcel target (Z.to_nat max_time) (world st)
  = Some w' ->
  exists l,
    wait_for_parcel_stage cluster parcel target max_time st
    = (Raise (Exception ("Parcel " ++ product parcel ++ "-" ++ version parcel
                         ++ " did not reach stage " ++ target ++ " in "
                         ++ str_of_Z max_time ++ " seconds.")),
       mkRun w' (log st ++ l))
    /\ slept l = max_time
    /\ option_map Z.of_int (NilZero.int_of_string (str_of_Z max_time))
       = Some (slept l).
Proof.
  intros Hpos Hq. unfold wait_for_parcel_stage.
  destruct (poll_loop_quiet_slept target max_time (Z.to_nat max_time) 0 st w' Hq)
    as (l & E & _ & Hs).
  rewrite Nat.add_0_r in E. exists l. rewrite E. split; [reflexivity|].
  split; [lia|]. rewrite str_of_Z_reads_back. f_equal. lia.
Qed.

Lemma poll_loop_ok (target : string) (max_time : Z) (n : nat)
    (st st' : Run W) :
  poll_loop cluster parcel target max_time n st = (Ok tt, st') ->
  exists w s l,
    cluster_get_parcel cluster (product parcel) (version parcel) w
    = (Ok s, world st')
    /\ stage s = target
    /\ log st' = log st ++ l ++ [fetch_ev]
    /\ fetches l < n.
Proof.
  revert st. induction n as [|n IH]; intros st H; [discriminate|].
  rewrite poll_loop_step in H.
  destruct (cluster_get_parcel cluster (product parcel) (version parcel)
              (world st)) as [[s|e] w1] eqn:G; [|discriminate].
  destruct (String.eqb_spec (stage s) target) as [Es|Es].
  - injection H as <-. exists (world st), s, []. cbn. repeat split; trivial. lia.
  - destruct (truthy_list (errors (state s))); [discriminate|].
    destruct (IH _ H) as (w & s' & l & Hw & Hs & Hl & Hf).
    exists w, s', ([fetch_ev; Print (progress_line s); Sleep 1] ++ l).
    repeat split; try assumption.
    + rewrite Hl. cbn [log]. now rewrite <- !app_assoc.
    + rewrite fetches_app.
      change (fetches [fetch_ev; Print (progress_line s); Sleep 1]) with 1.
      lia.
Qed.

(** X10. A wait returns normally only on a fetch that reported the target
    stage: that fetch is the last thing it did, the world is the one the
    fetch left, and fewer than [max_time] fetches came before it. *)
Theorem wait_success_observed (target : string) (max_time : Z)
    (st st' : Run W) :
  wait_for_parcel_stage cluster parcel target max_time st = (Ok tt, st') ->
  exists w s l,
    cluster_get_parcel cluster (product parcel) (version parcel) w
    = (Ok s, world st')
    /\ stage s = target
    /\ log st' = log st ++ l ++ [fetch_ev]
    /\ fetches l < Z.to_nat max_time.
Proof. apply poll_loop_ok. Qed.

(** X11. An exception raised by a status fetch ends the wait at once with
    that exception: after [k] quiet polls within the budget, the failing
    fetch is the last thing the wait does. *)
Theorem poll_client_failure (target : string) (max_time : Z) (k : nat)
    (st : Run W) (w_k w_after : W) (e : exn) :
  k < Z.to_nat max_time ->
  after_quiet_polls cluster parcel target k (world st) = Some w_k ->
  cluster_get_parcel cluster (product parcel) (version parcel) w_k
  = (Raise e, w_after) ->
  exists l,
    fetches l = k
    /\ wait_for_parcel_stage cluster parcel target max_time st
       = (Raise e, mkRun w_after (log st ++ l ++ [fetch_ev])).
Proof.
  intros Hk Hq He. unfold wait_for_parcel_stage.
  replace (Z.to_nat max_time) with (k + S (Z.to_nat max_time - S k)) by lia.
  destruct (poll_loop_quiet_slept target max_time k
              (S (Z.to_nat max_time - S k)) st w_k Hq) as (l & E & Hf & _).
  exists l. rewrite E, poll_loop_step. cbn [world log]. rewrite He.
  now rewrite <- app_assoc.
Qed.

Lemma no_budget_no_poll (target : string) (max_time : Z) (st : Run W) :
  (max_time <= 0)%Z ->
  wait_for_parcel_stage cluster parcel target max_time st
  = (Raise (Exception (timeout_msg parcel target max_time)), st).
Proof.
  intros H. unfold wait_for_parcel_stage.
  replace (Z.to_nat max_time) with 0 by lia. reflexivity.
Qed.

End Waiting.

Lemma timeout_after_budget_seconds_witness :
  exists l,
    wait_for_parcel_stage cluster1 chosen "DISTRIBUTED" 5 (start world_stalls)
    = (Raise (Exception
                 "Parcel KUDU-1.4.0-2 did not reach stage DISTRIBUTED in 5 seconds."),
       mkRun (polls_then []) ([] ++ l))
    /\ slept l = 5%Z
    /\ option_map Z.of_int (NilZero.int_of_string (str_of_Z 5))
       = Some (slept l).
Proof.
  exact (timeout_after_budget_seconds cluster1 chosen "DISTRIBUTED" 5
           (start world_stalls) (polls_then []) ltac:(lia) eq_refl).
Defined.

Lemma wait_success_observed_witness :
  exists w s l,
    cluster_get_parcel cluster1 (product chosen) (version chosen) w
    = (Ok s, polls_then [kudu "1.4.0-2" "ACTIVATED"])
    /\ stage s = "DISTRIBUTED"%string
    /\ [GetParcel cluster1 "KUDU" "1.4.0-2"; Print "progress: 0 / 0"; Sleep 1;
        GetParcel cluster1 "KUDU" "1.4.0-2"]
       = [] ++ l ++ [GetParcel cluster1 (product chosen) (version chosen)]
    /\ fetches l < Z.to_nat 5.
Proof.
  exact (wait_success_observed cluster1 chosen "DISTRIBUTED" 5
           (start world_distributes)
           (mkRun (polls_then [kudu "1.4.0-2" "ACTIVATED"])
              [GetParcel cluster1 "KUDU" "1.4.0-2"; Print "progress: 0 / 0";
               Sleep 1; GetParcel cluster1 "KUDU" "1.4.0-2"])
           eq_refl).
Defined.

Lemma poll_client_failure_witness :
  exists l,
    fetches l = 1
    /\ wait_for_parcel_stage cluster1 chosen "DISTRIBUTED" 5
         (start (polls_then [kudu "1.4.0-2" "DOWNLOADED"]))
       = (Raise (Exception "no status"),
          mkRun (polls_then [])
            ([] ++ l ++ [GetParcel cluster1 (product chosen) (version chosen)])).
Proof.
  exact (poll_client_failure cluster1 chosen "DISTRIBUTED" 5 1
           (start (polls_then [kudu "1.4.0-2" "DOWNLOADED"]))
           (polls_then []) (polls_then []) (Exception "no status")
           ltac:(vm_compute; lia) eq_refl eq_refl).
Defined.

(** ** The driver as a whole *)

Section Driving.

Context {W : Type} {api : CmApi W} {pystr : PyStr}.

Variables (cluster : Cluster) (parcel : Parcel).

(** A phase with its counts: after the opening line and the request come
    at most [max_time] fetches and no request. *)
Lemma phase_trace {A : Type} (m1 m2 target : string) (ev : event)
    (act : W -> Res unit * W) (max_time : Z) (a : A) (st : Run W) :
  exists post,
    log (snd ((print m1 ;; call ev act ;;
               wait_for_parcel_stage cluster parcel target max_time ;;
               print m2 ;; ret a) st))
    = log st ++ [Print m1; ev] ++ post
    /\ actions post = [] /\ fetches post <= Z.to_nat max_time.
Proof.
  rewrite phase_run. destruct (act (world st)) as [[u|e] w1].
  - destruct (poll_loop_trace cluster parcel target max_time
                (Z.to_nat max_time) (mkRun w1 (log st ++ [Print m1; ev])))
      as (l & E & Hl & Hf & _).
    apply polling_no_action in Hl.
    fold (wait_for_parcel_stage cluster parcel target max_time) in E.
    destruct (wait_for_parcel_stage cluster parcel target max_time
                (mkRun w1 (log st ++ [Print m1; ev]))) as [[u'|e] st2];
      cbn [snd log] in *; rewrite E, <- !app_assoc.
    + exists (l ++ [Print m2]). rewrite actions_app, fetches_app, Hl.
      repeat split. cbn. lia.
    + exists l. now repeat split.
  - exists []. cbn [snd log]. repeat split. cbn. lia.
Qed.

Lemma phase_last_trace (m1 m2 target : string) (ev : event)
    (act : W -> Res unit * W) (max_time : Z) (st : Run W) :
  exists post,
    log (snd ((print m1 ;; call ev act ;;
               wait_for_parcel_stage cluster parcel target max_time ;;
               print m2) st))
    = log st ++ [Print m1; ev] ++ post
    /\ actions post = [] /\ fetches post <= Z.to_nat max_time.
Proof.
  rewrite phase_run_last.
  destruct (phase_trace m1 m2 target ev act max_time tt st)
    as (post & E & Ha & Hf).
  rewrite phase_run in E. exists post. split; [|now split].
  destruct (act (world st)) as [[u|e] w1]; [|exact E].
  destruct (wait_for_parcel_stage cluster parcel target max_time
              (mkRun w1 (log st ++ [Print m1; ev]))) as [[u'|e] st2];
    exact E.
Qed.

Lemma phase_counts (m1 : string) (ev : event) (post : list event)
    (budget : nat) :
  is_action ev = true -> is_fetch ev = false ->
  actions post = [] -> fetches post <= budget ->
  List.length (actions ([Print m1; ev] ++ post)) <= 1
  /\ fetches ([Print m1; ev] ++ post)
     <= List.length (actions ([Print m1; ev] ++ post)) * budget.
Proof.
  intros Ha Hf Hp Hb. rewrite (actions_phase m1 ev post Ha Hp), fetches_app.
  unfold fetches at 1. cbn [filter is_fetch List.length]. rewrite Hf.
  cbn [List.length]. lia.
Qed.

Lemma idle_counts (budget : nat) :
  List.length (actions []) <= 1
  /\ fetches [] <= List.length (actions []) * budget.
Proof. cbn. lia. Qed.

Lemma download_step_counts (max_time : Z) (ps : string) (st : Run W) :
  exists l,
    log (snd (download_step cluster parcel max_time ps st)) = log st ++ l
    /\ List.length (actions l) <= 1
    /\ fetches l <= List.length (actions l) * Z.to_nat max_time.
Proof.
  unfold download_step. destruct (ps =? "AVAILABLE_REMOTELY")%string.
  - destruct (phase_trace ("Downloading parcel: " ++ parcel_id parcel)
                ("Downloaded parcel: " ++ parcel_id parcel ++ " ")
                "DOWNLOADED" (StartDownload parcel)
                (parcel_start_download parcel) max_time
                "DOWNLOADED"%string st) as (post & E & Ha & Hf).
    eexists. split; [exact E|]. now apply phase_counts.
  - exists []. cbn [ret snd]. rewrite app_nil_r.
    split; [reflexivity | apply idle_counts].
Qed.

Lemma distribute_step_counts (max_time : Z) (ps : string) (st : Run W) :
  exists l,
    log (snd (distribute_step cluster parcel max_time ps st)) = log st ++ l
    /\ List.length (actions l) <= 1
    /\ fetches l <= List.length (actions l) * Z.to_nat max_time.
Proof.
  unfold distribute_step. destruct (ps =? "DOWNLOADED")%string.
  - destruct (phase_trace ("Distributing parcel: " ++ parcel_id parcel ++ " ")
                ("Distributed parcel: " ++ parcel_id parcel ++ " ")
                "DISTRIBUTED" (StartDistribution parcel)
                (parcel_start_distribution parcel) max_time
                "DISTRIBUTED"%string st) as (post & E & Ha & Hf).
    eexists. split; [exact E|]. now apply phase_counts.
  - exists []. cbn [ret snd]. rewrite app_nil_r.
    split; [reflexivity | apply idle_counts].
Qed.

Lemma activate_step_counts (max_time : Z) (ps : string) (st : Run W) :
  exists l,
    log (snd (activate_step cluster parcel max_time ps st)) = log st ++ l
    /\ List.length (actions l) <= 1
    /\ fetches l <= List.length (actions l) * Z.to_nat max_time.
Proof.
  unfold activate_step. destruct (ps =? "DISTRIBUTED")%string.
  - destruct (phase_last_trace
                ("Activating parcel: " ++ parcel_id parcel ++ " ")
                ("Activated parcel: " ++ parcel_id parcel ++ " ")
                "ACTIVATED" (Activate parcel)
                (parcel_activate parcel) max_time st) as (post & E & Ha & Hf).
    eexists. split; [exact E|]. now apply phase_counts.
  - exists []. cbn [ret snd]. rewrite app_nil_r.
    split; [reflexivity | apply idle_counts].
Qed.

(** X12. Whatever the client answers, the driver issues at most three
    requests, and fetches the status at most [max_time] times per request
    issued: at most three times the budget in all. *)
Theorem driver_is_bounded (max_time : Z) (st : Run W) :
  exists l,
    log (snd (ensure_parcel_activated cluster parcel max_time st)) = log st ++ l
    /\ List.length (actions l) <= 3
    /\ fetches l <= List.length (actions l) * Z.to_nat max_time.
Proof.
  rewrite ensure_steps. unfold bind at 1.
  destruct (download_step_counts max_time (stage parcel) st)
    as (l1 & E1 & A1 & F1).
  destruct (download_step cluster parcel max_time (stage parcel) st)
    as [[ps1|e1] st1]; cbn [snd] in E1.
  2:{ exists l1. cbn [snd]. split; [exact E1|]. split; [lia | exact F1]. }
  unfold bind at 1.
  destruct (distribute_step_counts max_time ps1 st1) as (l2 & E2 & A2 & F2).
  destruct (distribute_step cluster parcel max_time ps1 st1)
    as [[ps2|e2] st2]; cbn [snd] in E2.
  2:{ exists (l1 ++ l2). cbn [snd]. rewrite E2, E1, <- app_assoc.
      split; [reflexivity|]. rewrite actions_app, length_app, fetches_app.
      split; [lia | nia]. }
  destruct (activate_step_counts max_time ps2 st2) as (l3 & E3 & A3 & F3).
  exists (l1 ++ l2 ++ l3). rewrite E3, E2, E1, <- !app_assoc.
  split; [reflexivity|].
  rewrite !actions_app, !length_app, !fetches_app. split; [lia | nia].
Qed.

(** What a normal return of the last step tells. *)
Lemma activate_step_ok (max_time : Z) (st st' : Run W) :
  activate_step cluster parcel max_time "DISTRIBUTED" st = (Ok tt, st') ->
  exists w s,
    cluster_get_parcel cluster (product parcel) (version parcel) w
    = (Ok s, world st')
    /\ stage s = "ACTIVATED"%string.
Proof.
  unfold activate_step. rewrite String.eqb_refl, phase_run_last.
  destruct (parcel_activate parcel (world st)) as [[u|e] w1]; [|discriminate].
  destruct (wait_for_parcel_stage cluster parcel "ACTIVATED" max_time
              (mkRun w1
                 (log st ++ [Print ("Activating parcel: "
                                    ++ parcel_id parcel ++ " ");
                             Activate parcel]))) as [[u'|e] st2] eqn:Hw;
    [|discriminate].
  intros [= <-]. destruct u'.
  destruct (poll_loop_ok cluster parcel "ACTIVATED" max_time _ _ _ Hw)
    as (w & s & l & Hg & Hs & _).
  now exists w, s.
Qed.

(** What a normal return of the driver tells. *)
Lemma ensure_ok_inv (max_time : Z) (st st' : Run W) :
  ensure_parcel_activated cluster parcel max_time st = (Ok tt, st') ->
  exists l,
    log st' = log st ++ l
    /\ actions l = plan parcel
    /\ (plan parcel <> [] ->
        exists w s,
          cluster_get_parcel cluster (product parcel) (version parcel) w
          = (Ok s, world st')
          /\ stage s = "ACTIVATED"%string).
Proof.
  rewrite ensure_steps. unfold bind at 1.
  destruct (download_step_spec cluster parcel max_time (stage parcel) st)
    as (l1 & E1 & H1). cbv zeta in E1, H1.
  destruct (download_step cluster parcel max_time (stage parcel) st)
    as [[ps1|e1] st1]; cbn [fst snd] in E1, H1; [|discriminate].
  unfold bind at 1.
  destruct (distribute_step_spec cluster parcel max_time ps1 st1)
    as (l2 & E2 & H2). cbv zeta in E2, H2.
  destruct (distribute_step cluster parcel max_time ps1 st1)
    as [[ps2|e2] st2]; cbn [fst snd] in E2, H2; [|discriminate].
  intros H3.
  destruct (activate_step_spec cluster parcel max_time ps2 st2)
    as (l3 & E3 & H3'). cbv zeta in E3, H3'. rewrite H3 in E3, H3'.
  cbn [snd] in E3.
  exists (l1 ++ l2 ++ l3). rewrite E3, E2, E1, <- !app_assoc.
  split; [reflexivity|]. rewrite !actions_app.
  destruct H1 as [(Hs & Ha & [Hf|(e & Hf)])|(Hs & -> & Hf)];
    try discriminate; injection Hf as ->.
  - destruct H2 as [(_ & Ha2 & [Hf2|(e & Hf2)])|(Hn & _)];
      try discriminate; [|now destruct Hn]. injection Hf2 as ->.
    destruct H3' as [(_ & Ha3)|(Hn & _)]; [|now destruct Hn].
    rewrite (plan_available parcel Hs), Ha, Ha2, Ha3.
    split; [reflexivity|]. intros _. now apply (activate_step_ok max_time st2).
  - destruct H2 as [(Hs2 & Ha2 & [Hf2|(e & Hf2)])|(Hs2 & -> & Hf2)];
      try discriminate; injection Hf2 as ->.
    + destruct H3' as [(_ & Ha3)|(Hn & _)]; [|now destruct Hn].
      rewrite (plan_downloaded parcel Hs2), Ha2, Ha3.
      split; [reflexivity|]. intros _.
      now apply (activate_step_ok max_time st2).
    + destruct H3' as [(Hs3 & Ha3)|(Hs3 & -> & _)].
      * rewrite (plan_distributed parcel Hs3), Ha3.
        split; [reflexivity|]. intros _. rewrite Hs3 in H3.
        now apply (activate_step_ok max_time st2).
      * rewrite (plan_other parcel Hs Hs2 Hs3). split; [reflexivity|].
        intros H. now destruct H.
Qed.

(** X13. When the driver returns normally it has issued the whole plan of
    the stage observed at entry, in order and once each; and unless that
    plan was empty, the last status it fetched reported ACTIVATED. *)
Theorem driver_success (max_time : Z) (st st' : Run W) :
  ensure_parcel_activated cluster parcel max_time st = (Ok tt, st') ->
  exists l,
    log st' = log st ++ l
    /\ actions l = plan parcel
    /\ (plan parcel <> [] ->
        exists w s,
          cluster_get_parcel cluster (product parcel) (version parcel) w
          = (Ok s, world st')
          /\ stage s = "ACTIVATED"%string).
Proof. apply ensure_ok_inv. Qed.

(** X14. A request that the client refuses ends the run with the client's
    exception, wherever in the run it is issued: the download request at
    entry, the distribution request at entry or after a completed
    download, the activation request at entry or after a completed
    distribution.  The refused request is the last thing the driver does:
    no status is fetched after it and no later request is issued. *)
Theorem request_refused (max_time : Z) (e : exn) :
  let downloading := Print ("Downloading parcel: " ++ parcel_id parcel) in
  let downloaded := Print ("Downloaded parcel: " ++ parcel_id parcel ++ " ") in
  let distributing :=
    Print ("Distributing parcel: " ++ parcel_id parcel ++ " ") in
  let distributed :=
    Print ("Distributed parcel: " ++ parcel_id parcel ++ " ") in
  let activating := Print ("Activating parcel: " ++ parcel_id parcel ++ " ") in
  (forall (st : Run W) (w1 : W),
     stage parcel = "AVAILABLE_REMOTELY"%string ->
     parcel_start_download parcel (world st) = (Raise e, w1) ->
     ensure_parcel_activated cluster parcel max_time st
     = (Raise e, mkRun w1 (log st ++ [downloading; StartDownload parcel])))
  /\ (forall (st : Run W) (w1 : W),
        stage parcel = "DOWNLOADED"%string ->
        parcel_start_distribution parcel (world st) = (Raise e, w1) ->
        ensure_parcel_activated cluster parcel max_time st
        = (Raise e,
           mkRun w1 (log st ++ [distributing; StartDistribution parcel])))
  /\ (forall (st : Run W) (w1 : W),
        stage parcel = "DISTRIBUTED"%string ->
        parcel_activate parcel (world st) = (Raise e, w1) ->
        ensure_parcel_activated cluster parcel max_time st
        = (Raise e, mkRun w1 (log st ++ [activating; Activate parcel])))
  /\ (forall (st sd : Run W) (w0 w1 : W),
        stage parcel = "AVAILABLE_REMOTELY"%string ->
        parcel_start_download parcel (world st) = (Ok tt, w0) ->
        wait_for_parcel_stage cluster parcel "DOWNLOADED" max_time
          (mkRun w0 (log st ++ [downloading; StartDownload parcel]))
        = (Ok tt, sd) ->
        parcel_start_distribution parcel (world sd) = (Raise e, w1) ->
        ensure_parcel_activated cluster parcel max_time st
        = (Raise e,
           mkRun w1 (log sd ++ [downloaded; distributing;
                                StartDistribution parcel])))
  /\ (forall (st sd : Run W) (w0 w1 : W),
        stage parcel = "DOWNLOADED"%string ->
        parcel_start_distribution parcel (world st) = (Ok tt, w0) ->
        wait_for_parcel_stage cluster parcel "DISTRIBUTED" max_time
          (mkRun w0 (log st ++ [distributing; StartDistribution parcel]))
        = (Ok tt, sd) ->
        parcel_activate parcel (world sd) = (Raise e, w1) ->
        ensure_parcel_activated cluster parcel max_time st
        = (Raise e,
           mkRun w1 (log sd ++ [distributed; activating; Activate parcel])))
  /\ (forall (st sd sd' : Run W) (w0 w0' w1 : W),
        stage parcel = "AVAILABLE_REMOTELY"%string ->
        parcel_start_download parcel (world st) = (Ok tt, w0) ->
        wait_for_parcel_stage cluster parcel "DOWNLOADED" max_time
          (mkRun w0 (log st ++ [downloading; StartDownload parcel]))
        = (Ok tt, sd) ->
        parcel_start_distribution parcel (world sd) = (Ok tt, w0') ->
        wait_for_parcel_stage cluster parcel "DISTRIBUTED" max_time
          (mkRun w0' (log sd ++ [downloaded; distributing;
                                 StartDistribution parcel]))
        = (Ok tt, sd') ->
        parcel_activate parcel (world sd') = (Raise e, w1) ->
        ensure_parcel_activated cluster parcel max_time st
        = (Raise e,
           mkRun w1 (log sd' ++ [distributed; activating; Activate parcel]))).
Proof.
  intros downloading downloaded distributing distributed activating.
  unfold downloading, downloaded, distributing, distributed, activating.
  split; [|split; [|split; [|split; [|split]]]].
  - intros st w1 Hstage Hact. rewrite ensure_steps.
    unfold bind at 1, download_step. rewrite Hstage.
    rewrite String.eqb_refl, phase_run, Hact. reflexivity.
  - intros st w1 Hstage Hact. rewrite ensure_steps.
    unfold bind at 1, download_step. rewrite Hstage.
    rewrite not_available_downloaded. unfold ret at 1.
    unfold bind at 1, distribute_step.
    rewrite String.eqb_refl, phase_run, Hact. reflexivity.
  - intros st w1 Hstage Hact. rewrite ensure_steps.
    unfold bind at 1, download_step. rewrite Hstage.
    rewrite not_available_distributed. unfold ret at 1.
    unfold bind at 1, distribute_step.
    rewrite not_downloaded_distributed. unfold ret at 1.
    unfold activate_step.
    rewrite String.eqb_refl, phase_run_last, Hact. reflexivity.
  - intros st sd w0 w1 Hstage Hdl Hw Hact. rewrite ensure_steps.
    unfold bind at 1, download_step. rewrite Hstage.
    rewrite String.eqb_refl, phase_run, Hdl, Hw.
    unfold bind at 1, distribute_step.
    rewrite String.eqb_refl, phase_run. cbn [world log]. rewrite Hact.
    now rewrite <- app_assoc.
  - intros st sd w0 w1 Hstage Hdi Hw Hact. rewrite ensure_steps.
    unfold bind at 1, download_step. rewrite Hstage.
    rewrite not_available_downloaded. unfold ret at 1.
    unfold bind at 1, distribute_step.
    rewrite String.eqb_refl, phase_run, Hdi, Hw.
    unfold activate_step.
    rewrite String.eqb_refl, phase_run_last. cbn [world log]. rewrite Hact.
    now rewrite <- app_assoc.
  - intros st sd sd' w0 w0' w1 Hstage Hdl Hw Hdi Hw' Hact. rewrite ensure_steps.
    unfold bind at 1, download_step. rewrite Hstage.
    rewrite String.eqb_refl, phase_run, Hdl, Hw.
    unfold bind at 1, distribute_step.
    rewrite String.eqb_refl, phase_run. cbn [world log]. rewrite Hdi.
    rewrite <- app_assoc. cbn [app]. rewrite Hw'.
    unfold activate_step.
    rewrite String.eqb_refl, phase_run_last. cbn [world log]. rewrite Hact.
    now rewrite <- app_assoc.
Qed.

(** X15. With a budget that is not positive the driver still issues the
    request of the stage observed at entry and, once it is accepted, fails
    with the timeout exception without fetching the status even once. *)
Theorem no_budget_after_request (max_time : Z) (st : Run W) (w1 : W) :
  (max_time <= 0)%Z ->
  (stage parcel = "AVAILABLE_REMOTELY"%string ->
   parcel_start_download parcel (world st) = (Ok tt, w1) ->
   ensure_parcel_activated cluster parcel max_time st
   = (Raise (Exception (timeout_msg parcel "DOWNLOADED" max_time)),
      mkRun w1 (log st ++ [Print ("Downloading parcel: " ++ parcel_id parcel);
                           StartDownload parcel])))
  /\ (stage parcel = "DOWNLOADED"%string ->
      parcel_start_distribution parcel (world st) = (Ok tt, w1) ->
      ensure_parcel_activated cluster parcel max_time st
      = (Raise (Exception (timeout_msg parcel "DISTRIBUTED" max_time)),
         mkRun w1 (log st ++ [Print ("Distributing parcel: "
                                     ++ parcel_id parcel ++ " ");
                              StartDistribution parcel])))
  /\ (stage parcel = "DISTRIBUTED"%string ->
      parcel_activate parcel (world st) = (Ok tt, w1) ->
      ensure_parcel_activated cluster parcel max_time st
      = (Raise (Exception (timeout_msg parcel "ACTIVATED" max_time)),
         mkRun w1 (log st ++ [Print ("Activating parcel: "
                                     ++ parcel_id parcel ++ " ");
                              Activate parcel]))).
Proof.
  intros Hmax. split; [|split]; intros Hstage Hact; rewrite ensure_steps;
    unfold bind at 1, download_step; rewrite Hstage.
  - rewrite String.eqb_refl, phase_run, Hact.
    now rewrite (no_budget_no_poll cluster parcel _ _ _ Hmax).
  - rewrite not_available_downloaded. unfold ret at 1.
    unfold bind at 1, distribute_step.
    rewrite String.eqb_refl, phase_run, Hact.
    now rewrite (no_budget_no_poll cluster parcel _ _ _ Hmax).
  - rewrite not_available_distributed. unfold ret at 1.
    unfold bind at 1, distribute_step.
    rewrite not_downloaded_distributed. unfold ret at 1.
    unfold activate_step.
    rewrite String.eqb_refl, phase_run_last, Hact.
    now rewrite (no_budget_no_poll cluster parcel _ _ _ Hmax).
Qed.

End Driving.

Lemma driver_success_witness :
  exists l,
    log (snd (ensure_parcel_activated cluster1 chosen 5
                (start world_completes)))
    = [] ++ l
    /\ actions l = plan chosen
    /\ (plan chosen <> [] ->
        exists w s,
          cluster_get_parcel cluster1 (product chosen) (version chosen) w
          = (Ok s, world (snd (ensure_parcel_activated cluster1 chosen 5
                                 (start world_completes))))
          /\ stage s = "ACTIVATED"%string).
Proof.
  exact (driver_success cluster1 chosen 5 (start world_completes)
           (snd (ensure_parcel_activated cluster1 chosen 5
                   (start world_completes)))
           eq_refl).
Defined.

Lemma request_refused_witness :
  ensure_parcel_activated cluster1 chosen 5
    (mkRun (mkFlaky [] false false false) [])
  = (Raise (Exception "refused"),
     mkRun (mkFlaky [] false false false)
       ([] ++ [Print "Distributing parcel: KUDU-1.4.0-2 ";
               StartDistribution chosen]))
  /\ ensure_parcel_activated cluster1 remote 5
       (mkRun (mkFlaky [kudu "1.4.0-2" "DOWNLOADED"] true false false) [])
     = (Raise (Exception "refused"),
        mkRun (mkFlaky [] true false false)
          ([Print "Downloading parcel: KUDU-1.4.0-2";
            StartDownload remote;
            GetParcel cluster1 "KUDU" "1.4.0-2"]
           ++ [Print "Downloaded parcel: KUDU-1.4.0-2 ";
               Print "Distributing parcel: KUDU-1.4.0-2 ";
               StartDistribution remote])).
Proof.
  split.
  - exact (proj1 (proj2 (request_refused cluster1 chosen 5
                           (Exception "refused")))
             (mkRun (mkFlaky [] false false false) [])
             (mkFlaky [] false false false) eq_refl eq_refl).
  - exact (proj1 (proj2 (proj2 (proj2
             (request_refused cluster1 remote 5 (Exception "refused")))))
             (mkRun (mkFlaky [kudu "1.4.0-2" "DOWNLOADED"] true false false) [])
             (mkRun (mkFlaky [] true false false)
                [Print "Downloading parcel: KUDU-1.4.0-2";
                 StartDownload remote;
                 GetParcel cluster1 "KUDU" "1.4.0-2"])
             (mkFlaky [kudu "1.4.0-2" "DOWNLOADED"] true false false)
             (mkFlaky [] true false false)
             eq_refl eq_refl eq_refl eq_refl).
Defined.

Lemma no_budget_after_request_witness :
  ensure_parcel_activated cluster1 chosen 0 (start world_completes)
  = (Raise (Exception (timeout_msg chosen "DISTRIBUTED" 0)),
     mkRun world_completes
       ([] ++ [Print ("Distributing parcel: " ++ parcel_id chosen ++ " ");
               StartDistribution chosen])).
Proof.
  exact (proj1 (proj2 (no_budget_after_request cluster1 chosen 0
                         (start world_completes) world_completes
                         ltac:(lia)))
           eq_refl eq_refl).
Defined.

(** ** Cluster resolution and the whole run *)

(** X16. Cluster resolution makes exactly one call of the client, the
    lookup of a non-empty name or else the listing of the clusters, and
    prints at most one line, the one announcing the sole cluster it
    returns; an exception raised by the listing is its outcome. *)
Theorem cluster_resolution_single_call {W : Type} {api : CmApi W}
    (cluster_name : option string) (st : Run W) :
  exists c out,
    log (snd (find_cluster cluster_name st)) = log st ++ c :: out
    /\ ((exists n, cluster_name = Some n /\ n <> ""%string
                   /\ c = GetCluster n /\ out = [])
        \/ ((cluster_name = None \/ cluster_name = Some ""%string)
            /\ c = GetAllClusters))
    /\ (out = []
        \/ exists cl,
             fst (find_cluster cluster_name st) = Ok cl
             /\ out = [Print ("Found cluster: " ++ displayName cl)])
    /\ (forall e,
          cluster_name = None \/ cluster_name = Some ""%string ->
          fst (api_get_all_clusters (world st)) = Raise e ->
          fst (find_cluster cluster_name st) = Raise e).
Proof.
  assert (Sole : exists out,
            log (snd (find_sole_cluster st)) = log st ++ GetAllClusters :: out
            /\ (out = []
                \/ exists cl,
                     fst (find_sole_cluster st) = Ok cl
                     /\ out = [Print ("Found cluster: " ++ displayName cl)])
            /\ (forall e,
                  fst (api_get_all_clusters (world st)) = Raise e ->
                  fst (find_sole_cluster st) = Raise e)).
  { destruct (api_get_all_clusters (world st)) as [[cs|e] w'] eqn:Hall.
    - rewrite (find_sole_cluster_run st cs w' Hall).
      destruct cs as [|c [|c' rest]]; cbn [fst snd log].
      + exists []. split; [reflexivity|]. split; [now left | discriminate].
      + exists [Print ("Found cluster: " ++ displayName c)].
        split; [reflexivity|]. split; [|discriminate]. right. now exists c.
      + exists []. split; [reflexivity|]. split; [now left | discriminate].
    - assert (Er : find_sole_cluster st
                   = (Raise e, mkRun w' (log st ++ [GetAllClusters])))
        by (unfold find_sole_cluster, bind at 1, call at 1; now rewrite Hall).
      rewrite Er. exists []. cbn [fst snd log]. split; [reflexivity|].
      split; [now left|]. intros e' [= <-]. reflexivity. }
  destruct cluster_name as [n|].
  - destruct (String.eqb_spec n "") as [->|Hn].
    + destruct Sole as (out & E & Hout & Herr).
      exists GetAllClusters, out. cbn [find_cluster truthy_name String.eqb negb].
      repeat split; try assumption; [right; split; [now right|reflexivity]|].
      intros e _. apply Herr.
    + exists (GetCluster n), []. unfold find_cluster, truthy_name.
      apply String.eqb_neq in Hn. rewrite Hn. cbn [negb]. unfold call.
      destruct (api_get_cluster n (world st)) as [r w']. cbn [snd log].
      repeat split; [| now left |].
      * left. exists n. apply String.eqb_neq in Hn. now repeat split.
      * intros e [H|H]; [discriminate H|]. injection H as ->.
        now rewrite String.eqb_refl in Hn.
  - destruct Sole as (out & E & Hout & Herr).
    exists GetAllClusters, out. cbn [find_cluster].
    repeat split; try assumption; [right; split; [now left|reflexivity]|].
    intros e _. apply Herr.
Qed.

Lemma find_cluster_frame {W : Type} {api : CmApi W}
    (cluster_name : option string) (st : Run W) :
  exists l,
    log (snd (find_cluster cluster_name st)) = log st ++ l /\ actions l = [].
Proof.
  assert (Sole : exists l,
            log (snd (find_sole_cluster st)) = log st ++ l /\ actions l = []).
  { destruct (api_get_all_clusters (world st)) as [[cs|e] w'] eqn:Hall.
    - rewrite (find_sole_cluster_run st cs w' Hall).
      destruct cs as [|c [|c' rest]]; cbn [snd log]; eexists; now split.
    - unfold find_sole_cluster, bind at 1, call at 1. rewrite Hall.
      cbn [snd log]. eexists. now split. }
  destruct cluster_name as [n|]; [|exact Sole].
  unfold find_cluster. destruct (truthy_name (Some n)); [|exact Sole].
  unfold call. destruct (api_get_cluster n (world st)) as [r w'].
  cbn [snd log]. eexists. now split.
Qed.

Lemma selection_frame {W : Type} {api : CmApi W} (cluster : Cluster)
    (st : Run W) :
  exists l,
    log (snd (get_best_upgrade_candidate_parcel cluster st)) = log st ++ l
    /\ actions l = [].
Proof.
  destruct (cluster_get_all_parcels cluster (world st)) as [[ps|e] w'] eqn:Hall.
  - rewrite (selection_run cluster st ps w' Hall).
    destruct (kudu_activated ps) as [|a rest];
      [cbn [snd log]; eexists; now split|].
    cbv zeta.
    destruct (filter_candidates (max_from a rest) (kudu_candidates ps))
      as [[|c cs]|e]; cbn [snd log]; try (eexists; now split).
    rewrite <- app_assoc. eexists. now split.
  - unfold get_best_upgrade_candidate_parcel, bind at 1, call. rewrite Hall.
    cbn [snd log]. eexists. now split.
Qed.

Lemma selection_ok_candidate {W : Type} {api : CmApi W} (cluster : Cluster)
    (st st' : Run W) (best : Parcel) :
  get_best_upgrade_candidate_parcel cluster st = (Ok best, st') ->
  product best = "KUDU"%string /\ stage best <> "ACTIVATED"%string.
Proof.
  intros Hsel.
  destruct (cluster_get_all_parcels cluster (world st)) as [[ps|e] w'] eqn:Hall.
  - destruct (selection_ok_inv cluster st st' ps w' best Hall Hsel)
      as (a & rest & c & cs & _ & F & -> & _).
    assert (Hin : In (max_from c cs)
                    (filter (is_upgrade_of (max_from a rest))
                       (kudu_candidates ps)))
      by (rewrite F; apply max_from_in).
    apply filter_In in Hin as [Hin _].
    now apply kudu_candidates_in in Hin as (_ & Hp & Hs).
  - unfold get_best_upgrade_candidate_parcel, bind at 1, call in Hsel.
    rewrite Hall in Hsel. discriminate.
Qed.

(** X17. Whatever the client answers, a run of [main] issues requests
    only for the one parcel the selection returned, a KUDU record that is
    not ACTIVATED, and only as an initial part of the plan for its stage;
    when the cluster resolution or the selection fails it issues no
    request at all. *)
Theorem main_requests {W : Type} {api : CmApi W} {pystr : PyStr}
    (args : Args) (st : Run W) :
  exists l,
    log (snd (main args st)) = log st ++ l
    /\ (actions l = []
        \/ exists cluster st1 st2 p k,
             find_cluster (arg_cluster args) st = (Ok cluster, st1)
             /\ get_best_upgrade_candidate_parcel cluster st1 = (Ok p, st2)
             /\ product p = "KUDU"%string
             /\ stage p <> "ACTIVATED"%string
             /\ actions l = firstn k (plan p)).
Proof.
  unfold main, bind at 1.
  destruct (find_cluster_frame (arg_cluster args) st) as (l0 & E0 & A0).
  destruct (find_cluster (arg_cluster args) st) as [[cluster|e] st1] eqn:Hf;
    cbn [snd] in E0.
  2:{ exists l0. cbn [snd]. split; [exact E0 | now left]. }
  unfold bind at 1.
  destruct (selection_frame cluster st1) as (l1 & E1 & A1).
  destruct (get_best_upgrade_candidate_parcel cluster st1)
    as [[p|e] st2] eqn:Hs; cbn [snd] in E1.
  2:{ exists (l0 ++ l1). cbn [snd]. rewrite E1, E0, <- app_assoc.
      split; [reflexivity|]. left. now rewrite actions_app, A0, A1. }
  destruct (ensure_actions_prefix cluster p (arg_max_time_per_stage args) st2)
    as (l2 & k & E2 & A2 & _).
  exists (l0 ++ l1 ++ l2). rewrite E2, E1, E0, <- !app_assoc.
  split; [reflexivity|]. right. exists cluster, st1, st2, p, k.
  destruct (selection_ok_candidate cluster st1 st2 p Hs) as [Hp Hst].
  repeat split; try assumption.
  now rewrite !actions_app, A0, A1, A2.
Qed.

(** X18. When [main] returns normally, a cluster was resolved, the
    selection returned a parcel, the whole plan for that parcel's stage
    was issued and nothing else was requested; and unless that plan was
    empty (a stage such as DOWNLOADING, for which the driver does nothing)
    the last status fetched reported ACTIVATED. *)
Theorem main_success {W : Type} {api : CmApi W} {pystr : PyStr}
    (args : Args) (st st' : Run W) :
  main args st = (Ok tt, st') ->
  exists cluster st1 st2 p l,
    find_cluster (arg_cluster args) st = (Ok cluster, st1)
    /\ get_best_upgrade_candidate_parcel cluster st1 = (Ok p, st2)
    /\ log st' = log st ++ l
    /\ actions l = plan p
    /\ (plan p <> [] ->
        exists w s,
          cluster_get_parcel cluster (product p) (version p) w
          = (Ok s, world st')
          /\ stage s = "ACTIVATED"%string).
Proof.
  unfold main, bind at 1.
  destruct (find_cluster_frame (arg_cluster args) st) as (l0 & E0 & A0).
  destruct (find_cluster (arg_cluster args) st) as [[cluster|e] st1] eqn:Hf;
    cbn [snd] in E0; [|discriminate].
  unfold bind at 1.
  destruct (selection_frame cluster st1) as (l1 & E1 & A1).
  destruct (get_best_upgrade_candidate_parcel cluster st1)
    as [[p|e] st2] eqn:Hs; cbn [snd] in E1; [|discriminate].
  intros Hd.
  destruct (ensure_ok_inv cluster p (arg_max_time_per_stage args) st2 st' Hd)
    as (l2 & E2 & A2 & Hact).
  exists cluster, st1, st2, p, (l0 ++ l1 ++ l2).
  repeat split; try assumption.
  - now rewrite E2, E1, E0, <- !app_assoc.
  - now rewrite !actions_app, A0, A1, A2.
Qed.

Lemma main_success_witness :
  exists cluster st1 st2 p l,
    find_cluster (arg_cluster default_args) (start world_full_cycle)
    = (Ok cluster, st1)
    /\ get_best_upgrade_candidate_parcel cluster st1 = (Ok p, st2)
    /\ log (snd (main default_args (start world_full_cycle))) = [] ++ l
    /\ actions l = plan p
    /\ (plan p <> [] ->
        exists w s,
          cluster_get_parcel cluster (product p) (version p) w
          = (Ok s, world (snd (main default_args (start world_full_cycle))))
          /\ stage s = "ACTIVATED"%string).
Proof.
  exact (main_success default_args (start world_full_cycle)
           (snd (main default_args (start world_full_cycle))) eq_refl).
Defined.
